(** * EIP-712 signature tester: the signer class and the hash-debugging scripts

    A shallow embedding of [eip712-signer.js] (class [EIP712Signer]:
    [generateDeadline], [checkFieldOrder], [signTypedData], [signPermit];
    the option loop and the two branches of [main]) and of the manual hash
    constructions of [debug-eip712-construction.js] and [recover-test.js],
    followed by the properties proved about them.

    Modelling conventions.
    - A JS object is the ordered list of its own data properties, in
      enumeration order.  A property holds data, never a function.  An
      assignment to a name the object does not have creates the property,
      last: so JS does for every ordinary name ([ordinaryName]), one that is
      neither a canonical array index, which it enumerates before the
      others, nor ["__proto__"], whose assignment sets the prototype.  Of
      the names inherited from [Object.prototype] the code uses
      [hasOwnProperty], which an own member of the message shadows
      ([message_hasOwnProperty]).
    - JS numbers are integers ([Z]), which is exact while they stay within
      the safe integers ([safeInteger]).  [NaN] and fractions do not occur.
    - [Date.now()] is an effect: a world carries the successive readings of
      the clock.  Exceptions carry their message.  [console.log] output is
      not modelled, and [async] functions are run to completion.
    - The [ethers] library is external: its operations are the methods of
      the class [Ethers]. *)

From Stdlib Require Import ZArith List String Ascii Bool Lia Permutation.
From Stdlib.Strings Require Import Byte.
Import ListNotations.
Local Open Scope string_scope.
Local Open Scope Z_scope.

(* ================================================================== *)
(** * JavaScript values and objects *)

Module Js.

Local Set Warnings "-register-all".

Inductive Val : Type :=
| VUndefined
| VNull
| VBool (b : bool)
| VNum (n : Z)
| VStr (s : string)
| VArr (l : list Val)
| VObj (o : list (string * Val)).

(** An object with values in [A]: own properties in enumeration order. *)
Definition ObjOf (A : Type) : Type := list (string * A).
Definition Obj : Type := ObjOf Val.

(** [Object.keys(o)] *)
Definition keys {A} (o : ObjOf A) : list string := map fst o.

(** [o.hasOwnProperty(k)] *)
Definition hasOwnProperty {A} (o : ObjOf A) (k : string) : bool :=
  existsb (String.eqb k) (keys o).

(** The own property [k] of [o], if any. *)
Fixpoint lookup {A} (k : string) (o : ObjOf A) : option A :=
  match o with
  | [] => None
  | (k', v) :: t => if String.eqb k' k then Some v else lookup k t
  end.

(** [o[k]] on an object of JS values: [undefined] when absent. *)
Definition prop (o : Obj) (k : string) : Val :=
  match lookup k o with
  | Some v => v
  | None => VUndefined
  end.

(** [o[k] = v]: an existing property keeps its place, a new one is created
    last, as JS creates and enumerates a property with an ordinary name
    ([ordinaryName] below). *)
Fixpoint set {A} (k : string) (v : A) (o : ObjOf A) : ObjOf A :=
  match o with
  | [] => [(k, v)]
  | (k', v') :: t =>
      if String.eqb k' k then (k, v) :: t else (k', v') :: set k v t
  end.

(** [{ ...o }]: the own properties of [o] are defined one by one, in order,
    on a fresh object. *)
Definition spread {A} (o : ObjOf A) : ObjOf A :=
  fold_left (fun acc kv => set (fst kv) (snd kv) acc) o [].

(** ToBoolean.  *)
Definition truthy (v : Val) : bool :=
  match v with
  | VUndefined | VNull => false
  | VBool b => b
  | VNum n => negb (n =? 0)
  | VStr s => negb (String.eqb s "")
  | VArr _ | VObj _ => true
  end.

(** A parameter default [x = d]: used when the argument is [undefined]. *)
Definition default_to (d v : Val) : Val :=
  match v with
  | VUndefined => d
  | _ => v
  end.

(** Equality of two arrays of strings, which is what comparing their
    [JSON.stringify] renderings decides. *)
Fixpoint same_strings (a b : list string) : bool :=
  match a, b with
  | [], [] => true
  | x :: a', y :: b' => String.eqb x y && same_strings a' b'
  | _, _ => false
  end.

(** The representation invariant of an object: no property occurs twice. *)
Definition wf {A} (o : ObjOf A) : Prop := NoDup (keys o).

(** The value of a string of decimal digits. *)
Fixpoint decimal (acc : Z) (s : string) : option Z :=
  match s with
  | EmptyString => Some acc
  | String c t =>
      let n := Z.of_nat (nat_of_ascii c) in
      if (48 <=? n) && (n <=? 57) then decimal (10 * acc + (n - 48)) t else None
  end.

(** Whether a property name is a canonical array index: the decimal
    rendering, without leading zeros, of an integer from 0 to 2^32 - 2.  JS
    enumerates the properties so named first and in numeric order, whenever
    they were created; all others follow in creation order. *)
Definition isArrayIndex (k : string) : bool :=
  match k with
  | EmptyString => false
  | String "0" EmptyString => true
  | String "0" _ => false
  | _ =>
      match decimal 0 k with
      | Some n => n <=? 4294967294
      | None => false
      end
  end.

(** A name that an assignment creates as an own property, enumerated after
    those created before it: neither an array index nor ["__proto__"], the
    assignment of which sets the prototype of the object instead. *)
Definition ordinaryName (k : string) : bool :=
  negb (isArrayIndex k) && negb (String.eqb k "__proto__").

(** [Number.isSafeInteger(n)]: the integers that a JS number holds exactly,
    and between which sums and differences that are safe are exact. *)
Definition safeInteger (n : Z) : Prop := - (2 ^ 53) < n < 2 ^ 53.

End Js.
Import Js.

(* ================================================================== *)
(** * Outcomes, the clock and the monad of the signer *)

Inductive Outcome (A : Type) : Type :=
| Returned (a : A)
| Thrown (msg : string).
Arguments Returned {A} a.
Arguments Thrown {A} msg.

(** The world: [readings n] is what the [n]-th call of [Date.now()] returns,
    in milliseconds since the epoch; [reads] counts the calls made so far. *)
Record World : Type := mkWorld { readings : nat -> Z; reads : nat }.

Definition M (A : Type) : Type := World -> Outcome A * World.

Definition ret {A} (a : A) : M A := fun w => (Returned a, w).

Definition throw {A} (msg : string) : M A := fun w => (Thrown msg, w).

Definition bind {A B} (m : M A) (f : A -> M B) : M B :=
  fun w =>
    match m w with
    | (Returned a, w') => f a w'
    | (Thrown e, w') => (Thrown e, w')
    end.

(** [try { m } catch (error) { h error.message }] *)
Definition try_catch {A} (m : M A) (h : string -> M A) : M A :=
  fun w =>
    match m w with
    | (Returned a, w') => (Returned a, w')
    | (Thrown e, w') => h e w'
    end.

Definition lift {A} (o : Outcome A) : M A := fun w => (o, w).

(** [Date.now()] *)
Definition Date_now : M Z :=
  fun w => (Returned (readings w (reads w)), mkWorld (readings w) (S (reads w))).

Declare Scope js_scope.
Delimit Scope js_scope with js.
Notation "x <- m ;; k" := (bind m (fun x => k))
  (at level 61, m at next level, right associativity) : js_scope.
Local Open Scope js_scope.

(* ================================================================== *)
(** * Typed-data definitions and the library interface *)

(** One member of a struct type: [{ name, type }]. *)
Record Field : Type := mkField { name : string; type : string }.

(** The [types] object: type name to the array of its members. *)
Definition Types : Type := ObjOf (list Field).

(** The operations of [ethers] the signer uses.  [wallet.signTypedData] and
    [ethers.verifyTypedData] both go through the library's typed-data hash
    of [(domain, types, value)]: the first signs that digest with the
    wallet's key, the second recovers an address from it. *)
Class Ethers : Type := {
  Wallet : Type;
  Digest : Type;
  Signature : Type;
  (** [wallet.address] *)
  address : Wallet -> string;
  (** [TypedDataEncoder.hash(domain, types, value)] *)
  TypedDataEncoder_hash : Obj -> Types -> Obj -> Outcome Digest;
  (** [wallet.signingKey.sign(digest).serialized] *)
  sign : Wallet -> Digest -> Signature;
  (** [ethers.recoverAddress(digest, signature)] *)
  recoverAddress : Digest -> Signature -> Outcome string;
  (** [ethers.getAddress(address)] *)
  getAddress : Val -> Outcome string
}.

Section Library.
Context {E : Ethers}.

(** [wallet.signTypedData(domain, types, value)] *)
Definition wallet_signTypedData (wallet : Wallet) (domain : Obj)
    (types : Types) (value : Obj) : Outcome Signature :=
  match TypedDataEncoder_hash domain types value with
  | Returned digest => Returned (sign wallet digest)
  | Thrown e => Thrown e
  end.

(** [ethers.verifyTypedData(domain, types, value, signature)] *)
Definition verifyTypedData (domain : Obj) (types : Types) (value : Obj)
    (signature : Signature) : Outcome string :=
  match TypedDataEncoder_hash domain types value with
  | Returned digest => recoverAddress digest signature
  | Thrown e => Thrown e
  end.

End Library.

(* ================================================================== *)
(** * class EIP712Signer *)

(** [Object.keys(types).find(key => key !== 'EIP712Domain')] *)
Definition findPrimary (types : Types) : option string :=
  find (fun key => negb (String.eqb key "EIP712Domain")) (keys types).

(** The property name that [types[...find(...)]] reads: a missing result of
    [find] is [undefined], which as a property key is the string
    ["undefined"]. *)
Definition primaryKey (types : Types) : string :=
  match findPrimary types with
  | Some key => key
  | None => "undefined"
  end.

(** What [checkFieldOrder] returns.  [primaryType] is absent from the object
    returned early. *)
Record OrderCheck : Type := mkOrderCheck {
  isOrdered : bool;
  typeOrder : list string;
  messageOrder : list string;
  reorderedMessage : Obj;
  primaryType : option string
}.

(** [message.hasOwnProperty(fieldName)], as [checkFieldOrder] calls it: the
    method is looked up on the message itself, where an own member named
    ["hasOwnProperty"] shadows the inherited one; the member holds data, and
    calling it throws a [TypeError]. *)
Definition message_hasOwnProperty (message : Obj) (fieldName : string)
    : Outcome bool :=
  if hasOwnProperty message "hasOwnProperty"
  then Thrown "message.hasOwnProperty is not a function"
  else Returned (hasOwnProperty message fieldName).

(** The [forEach] that builds [reorderedMessage], from the names left to
    visit and the object built so far. *)
Fixpoint forEachField (typeOrder : list string) (message : Obj)
    (reorderedMessage : Obj) : Outcome Obj :=
  match typeOrder with
  | [] => Returned reorderedMessage
  | fieldName :: rest =>
      match message_hasOwnProperty message fieldName with
      | Thrown error => Thrown error
      | Returned true =>
          forEachField rest message
            (set fieldName (prop message fieldName) reorderedMessage)
      | Returned false => forEachField rest message reorderedMessage
      end
  end.

(** What that loop builds when the method it calls is the inherited one. *)
Definition reorder (typeOrder : list string) (message : Obj) : Obj :=
  fold_left
    (fun reorderedMessage fieldName =>
       if hasOwnProperty message fieldName
       then set fieldName (prop message fieldName) reorderedMessage
       else reorderedMessage)
    typeOrder [].

Definition checkFieldOrder (types : Types) (message : Obj) : Outcome OrderCheck :=
  match findPrimary types with
  | None => Returned (mkOrderCheck true [] [] message None)
  | Some primaryType =>
      if negb (truthy (VStr primaryType))
      then Returned (mkOrderCheck true [] [] message None)
      else
        match lookup primaryType types with
        | None =>
            Thrown "Cannot read properties of undefined (reading 'map')"
        | Some fields =>
            let typeOrder := map name fields in
            let messageOrder := keys message in
            let isOrdered := same_strings typeOrder messageOrder in
            match forEachField typeOrder message [] with
            | Thrown error => Thrown error
            | Returned reorderedMessage =>
                Returned (mkOrderCheck isOrdered typeOrder messageOrder
                            reorderedMessage (Some primaryType))
            end
        end
  end.

(** Whether the type read by the deadline step declares a member named
    ["deadline"]; [None] when [types[...]] is [undefined]. *)
Definition declaresDeadline (types : Types) : option bool :=
  match lookup (primaryKey types) types with
  | Some messageType =>
      Some (existsb (fun field => String.eqb (name field) "deadline") messageType)
  | None => None
  end.

(** [generateDeadline(durationSeconds = 3600)].  The quotient is exact for
    every reading of the clock; the sum is exact while the duration and the
    sum are safe integers, as they are for the default duration. *)
Definition generateDeadline (durationSeconds : Z) : M Z :=
  now <- Date_now ;;
  ret (now / 1000 + durationSeconds).

(** The object [signTypedData] returns. *)
Record SigningResult {E : Ethers} : Type := mkSigningResult {
  signature : Signature;
  deadline : Val;
  recoveredAddress : string;
  messageWithDeadline : Obj;
  signer : string
}.

(** An instance of the class: [this.wallet]. *)
Record EIP712Signer {E : Ethers} : Type := mkSigner { wallet : Wallet }.

(** The [types] object literal of [signPermit]. *)
Definition PermitTypes : Types :=
  [ ("Permit",
     [ mkField "owner" "address";
       mkField "spender" "address";
       mkField "value" "uint256";
       mkField "nonce" "uint256";
       mkField "deadline" "uint256" ]) ].

Section Signer.
Context {E : Ethers}.
Variable this : EIP712Signer.

Definition signTypedData (domain : Obj) (types : Types) (value : Obj)
    (deadline : Val) : M SigningResult :=
  let deadline := default_to VNull deadline in
  try_catch
    (orderCheck <- lift (checkFieldOrder types value) ;;
     let value :=
       if negb (isOrdered orderCheck) then reorderedMessage orderCheck
       else value in
     deadline <-
       (if negb (truthy deadline)
        then (d <- generateDeadline 3600 ;; ret (VNum d))
        else ret deadline) ;;
     let messageWithDeadline := spread value in
     let messageWithDeadline :=
       match declaresDeadline types with
       | Some true => set "deadline" deadline messageWithDeadline
       | _ => messageWithDeadline
       end in
     signature <-
       lift (wallet_signTypedData (wallet this) domain types messageWithDeadline) ;;
     recoveredAddress <-
       lift (verifyTypedData domain types messageWithDeadline signature) ;;
     ret (mkSigningResult E signature deadline recoveredAddress
            messageWithDeadline (address (wallet this))))
    (fun error => throw ("Failed to sign typed data: " ++ error)).

Definition signPermit (permitData : Obj) : M SigningResult :=
  let tokenName := prop permitData "tokenName" in
  let tokenVersion := default_to (VStr "1") (prop permitData "tokenVersion") in
  let chainId := prop permitData "chainId" in
  let verifyingContract := prop permitData "verifyingContract" in
  let owner := prop permitData "owner" in
  let spender := prop permitData "spender" in
  let value := prop permitData "value" in
  let nonce := prop permitData "nonce" in
  let deadline := default_to VNull (prop permitData "deadline") in
  contract <- lift (getAddress verifyingContract) ;;
  let domain : Obj :=
    [ ("name", tokenName);
      ("version", tokenVersion);
      ("chainId", chainId);
      ("verifyingContract", VStr contract) ] in
  let types := PermitTypes in
  owner' <-
    (if truthy owner then lift (getAddress owner)
     else ret (address (wallet this))) ;;
  spender' <- lift (getAddress spender) ;;
  deadline' <-
    (if truthy deadline then ret deadline
     else (d <- generateDeadline 3600 ;; ret (VNum d))) ;;
  let message : Obj :=
    [ ("owner", VStr owner');
      ("spender", VStr spender');
      ("value", value);
      ("nonce", nonce);
      ("deadline", deadline') ] in
  signTypedData domain types message (prop message "deadline").

End Signer.

(* ================================================================== *)
(** * Keccak-256, as [ethers.keccak256] computes it

    Keccak-f[1600] with rate 1088 and the original Keccak padding; lanes are
    64-bit integers. *)

Module Keccak.

Local Open Scope list_scope.

Definition mask64 : Z := 2 ^ 64 - 1.

Definition rotl64 (x n : Z) : Z :=
  Z.lor (Z.land (Z.shiftl x n) mask64) (Z.shiftr x (64 - n)).

(** The state is 25 lanes; lane [(x, y)] is at index [x + 5 y]. *)
Definition lane (s : list Z) (x y : nat) : Z :=
  nth (x mod 5 + 5 * (y mod 5)) s 0.

Definition RC : list Z :=
  [ 0x0000000000000001; 0x0000000000008082; 0x800000000000808A;
    0x8000000080008000; 0x000000000000808B; 0x0000000080000001;
    0x8000000080008081; 0x8000000000008009; 0x000000000000008A;
    0x0000000000000088; 0x0000000080008009; 0x000000008000000A;
    0x000000008000808B; 0x800000000000008B; 0x8000000000008089;
    0x8000000000008003; 0x8000000000008002; 0x8000000000000080;
    0x000000000000800A; 0x800000008000000A; 0x8000000080008081;
    0x8000000000008080; 0x0000000080000001; 0x8000000080008008 ].

Definition RHO : list Z :=
  [  0;  1; 62; 28; 27;
    36; 44;  6; 55; 20;
     3; 10; 43; 25; 39;
    41; 45; 15; 21;  8;
    18;  2; 61; 56; 14 ].

Definition coords : list (nat * nat) :=
  flat_map (fun y => map (fun x => (x, y)) (seq 0 5)) (seq 0 5).

Definition theta (s : list Z) : list Z :=
  let C := map (fun x => fold_left Z.lxor (map (lane s x) (seq 0 5)) 0) (seq 0 5) in
  let c x := nth (x mod 5) C 0 in
  let D := map (fun x => Z.lxor (c (x + 4)%nat) (rotl64 (c (x + 1)%nat) 1)) (seq 0 5) in
  map (fun xy => Z.lxor (lane s (fst xy) (snd xy)) (nth (fst xy) D 0)) coords.

(** rho and pi together: the lane that lands on [(X, Y)] comes from
    [(x, y)] with [y = X] and [x = X + 3 Y]. *)
Definition rho_pi (s : list Z) : list Z :=
  map (fun XY =>
         let x := ((fst XY + 3 * snd XY) mod 5)%nat in
         let y := fst XY in
         rotl64 (lane s x y) (nth (x + 5 * y) RHO 0)) coords.

Definition chi (s : list Z) : list Z :=
  map (fun xy =>
         let x := fst xy in
         let y := snd xy in
         Z.lxor (lane s x y)
           (Z.land (Z.lxor (lane s (x + 1) y) mask64) (lane s (x + 2) y)))
      coords.

Definition iota (rc : Z) (s : list Z) : list Z :=
  match s with
  | a :: t => Z.lxor a rc :: t
  | [] => []
  end.

Definition round (s : list Z) (rc : Z) : list Z :=
  iota rc (chi (rho_pi (theta s))).

Definition keccak_f (s : list Z) : list Z := fold_left round RC s.

Definition Z_of_byte (b : byte) : Z := Z.of_N (Byte.to_N b).

Definition byte_of_Z (z : Z) : byte :=
  match Byte.of_N (Z.to_N (z mod 256)) with
  | Some b => b
  | None => x00
  end.

(** Little-endian bytes of a lane, and back. *)
Definition lane_of_bytes (bs : list byte) : Z :=
  fold_right (fun b acc => Z_of_byte b + 256 * acc) 0 bs.

Fixpoint bytes_of_lane (n : nat) (z : Z) : list byte :=
  match n with
  | O => []
  | S n' => byte_of_Z z :: bytes_of_lane n' (z / 256)
  end.

Fixpoint chunks {A} (fuel k : nat) (l : list A) : list (list A) :=
  match fuel with
  | O => []
  | S fuel' =>
      match l with
      | [] => []
      | _ => firstn k l :: chunks fuel' k (skipn k l)
      end
  end.

Definition rate : nat := 136.

Definition pad (m : list byte) : list byte :=
  let q := (rate - (List.length m mod rate))%nat in
  if (q =? 1)%nat then m ++ [x81]
  else m ++ [x01] ++ repeat x00 (q - 2) ++ [x80].

Definition absorb (s : list Z) (block : list byte) : list Z :=
  let lanes := map lane_of_bytes (chunks 17 8 block) ++ repeat 0 8 in
  keccak_f (map (fun ab => Z.lxor (fst ab) (snd ab)) (combine s lanes)).

Definition keccak256 (m : list byte) : list byte :=
  let p := pad m in
  let s := fold_left absorb (chunks (S (List.length p)) rate p) (repeat 0 25) in
  flat_map (bytes_of_lane 8) (firstn 4 s).

End Keccak.

(* ================================================================== *)
(** * The byte-level helpers of [ethers] that the debug scripts call

    Binary data is a list of bytes; where the library hands back a hex
    string ([keccak256]) the string is produced, and where the scripts write
    one as a literal it is parsed with [getBytes]. *)

Module Data.

Local Open Scope list_scope.

(** [ethers.toUtf8Bytes]: a string is kept as its UTF-8 bytes. *)
Definition toUtf8Bytes (s : string) : list byte := list_byte_of_string s.

Definition hex_value (c : ascii) : option Z :=
  let n := Z.of_nat (nat_of_ascii c) in
  if (48 <=? n) && (n <=? 57) then Some (n - 48)
  else if (97 <=? n) && (n <=? 102) then Some (n - 87)
  else if (65 <=? n) && (n <=? 70) then Some (n - 55)
  else None.

Fixpoint hex_pairs (s : string) : option (list byte) :=
  match s with
  | EmptyString => Some []
  | String a (String b t) =>
      match hex_value a, hex_value b, hex_pairs t with
      | Some h, Some l, Some r => Some (Keccak.byte_of_Z (16 * h + l) :: r)
      | _, _, _ => None
      end
  | String _ EmptyString => None
  end.

(** [ethers.getBytes] of a string: ["0x"] and an even number of hex digits. *)
Definition getBytes (s : string) : option (list byte) :=
  match s with
  | String "0" (String "x" t) => hex_pairs t
  | _ => None
  end.

Definition hex_digit (n : Z) : ascii :=
  ascii_of_nat (Z.to_nat (if n <? 10 then 48 + n else 87 + n)).

Fixpoint hex_of (bs : list byte) : string :=
  match bs with
  | [] => EmptyString
  | b :: t =>
      String (hex_digit (Keccak.Z_of_byte b / 16))
        (String (hex_digit (Keccak.Z_of_byte b mod 16)) (hex_of t))
  end.

(** [ethers.hexlify] *)
Definition hexlify (bs : list byte) : string := String "0" (String "x" (hex_of bs)).

(** [ethers.keccak256]: the digest as a lower-case hex string. *)
Definition keccak256 (data : list byte) : string :=
  hexlify (Keccak.keccak256 data).

Definition lower (c : ascii) : ascii :=
  let n := nat_of_ascii c in
  if ((65 <=? n) && (n <=? 90))%nat then ascii_of_nat (n + 32) else c.

Definition upper (c : ascii) : ascii :=
  let n := nat_of_ascii c in
  if ((97 <=? n) && (n <=? 122))%nat then ascii_of_nat (n - 32) else c.

Definition is_upper_hex (c : ascii) : bool :=
  let n := nat_of_ascii c in ((65 <=? n) && (n <=? 70))%nat.

Definition is_lower_hex (c : ascii) : bool :=
  let n := nat_of_ascii c in ((97 <=? n) && (n <=? 102))%nat.

(** The loop of [getChecksumAddress]: two characters per hash byte, each
    upper-cased when its nibble of the hash is 8 or more. *)
Fixpoint checksum_chars (chars : list ascii) (hashed : list byte) : list ascii :=
  match chars, hashed with
  | c1 :: c2 :: chars', h :: hashed' =>
      (if 8 <=? Keccak.Z_of_byte h / 16 then upper c1 else c1)
      :: (if 8 <=? Keccak.Z_of_byte h mod 16 then upper c2 else c2)
      :: checksum_chars chars' hashed'
  | _, _ => chars
  end.

(** [getChecksumAddress(address)] on the 40 hex digits after ["0x"]. *)
Definition getChecksumAddress (digits : list ascii) : string :=
  let chars := map lower digits in
  let expanded := map byte_of_ascii chars in
  let hashed := Keccak.keccak256 expanded in
  String "0" (String "x" (string_of_list_ascii (checksum_chars chars hashed))).

(** [/([A-F].*[a-f])|([a-f].*[A-F])/]: letters of both cases occur. *)
Definition mixed_case (cs : list ascii) : bool :=
  existsb is_upper_hex cs && existsb is_lower_hex cs.

(** [ethers.getAddress] on a string of 40 hex digits, with or without
    ["0x"]; anything else throws (ICAP addresses are left out). *)
Definition getAddress (s : string) : option string :=
  let digits :=
    match s with
    | String "0" (String "x" t) => list_ascii_of_string t
    | _ => list_ascii_of_string s
    end in
  if (List.length digits =? 40)%nat
     && forallb (fun c => match hex_value c with Some _ => true | None => false end) digits
  then
    let result := getChecksumAddress digits in
    if negb (mixed_case digits)
       || String.eqb result (String "0" (String "x" (string_of_list_ascii digits)))
    then Some result
    else None
  else None.

Definition digit_value (c : ascii) : option Z :=
  let n := Z.of_nat (nat_of_ascii c) in
  if (48 <=? n) && (n <=? 57) then Some (n - 48) else None.

Fixpoint parse_digits (acc : Z) (s : string) : option Z :=
  match s with
  | EmptyString => Some acc
  | String c t =>
      match digit_value c with
      | Some d => parse_digits (10 * acc + d) t
      | None => None
      end
  end.

(** [getBigInt(value)]: a safe integer, or a string of decimal digits. *)
Definition getBigInt (v : Val) : option Z :=
  match v with
  | VNum n => if (- (2 ^ 53 - 1) <=? n) && (n <=? 2 ^ 53 - 1) then Some n else None
  | VStr EmptyString => None
  | VStr s => parse_digits 0 s
  | _ => None
  end.

(** The digits of a size as the library requires them: they read back as
    the same string ([String(size) === match]). *)
Definition canonical_size (s : string) : option Z :=
  match s with
  | EmptyString => None
  | String "0" (String _ _) => None
  | _ => parse_digits 0 s
  end.

Fixpoint strip_prefix (p s : string) : option string :=
  match p, s with
  | EmptyString, _ => Some s
  | String a p', String b s' => if Ascii.eqb a b then strip_prefix p' s' else None
  | String _ _, EmptyString => None
  end.

(** Big-endian bytes of [z] on exactly [n] bytes. *)
Fixpoint be_bytes (n : nat) (z : Z) : list byte :=
  match n with
  | O => []
  | S n' => be_bytes n' (z / 256) ++ [Keccak.byte_of_Z z]
  end.

(** [zeroPadValue(toBeArray(value), size / 8)] for a [uint] of [size] bits. *)
Definition pack_uint (size : Z) (v : Z) : option (list byte) :=
  if (0 <=? v) && (v <? 2 ^ size) then Some (be_bytes (Z.to_nat (size / 8)) v)
  else None.

Definition number_size (digits : string) : option Z :=
  match digits with
  | EmptyString => Some 256
  | _ =>
      match canonical_size digits with
      | Some size =>
          if (size mod 8 =? 0) && negb (size =? 0) && (size <=? 256)
          then Some size else None
      | None => None
      end
  end.

(** [_pack(type, value)] of [solidityPacked], outside arrays. *)
Definition pack (type : string) (value : Val) : option (list byte) :=
  if String.eqb type "address" then
    match value with
    | VStr s =>
        match getAddress s with
        | Some a => getBytes a
        | None => None
        end
    | _ => None
    end
  else if String.eqb type "string" then
    match value with
    | VStr s => Some (toUtf8Bytes s)
    | _ => None
    end
  else if String.eqb type "bytes" then
    match value with
    | VStr s => getBytes s
    | _ => None
    end
  else if String.eqb type "bool" then
    Some [if truthy value then x01 else x00]
  else
    match strip_prefix "uint" type, strip_prefix "int" type with
    | Some digits, _ =>
        match number_size digits, getBigInt value with
        | Some size, Some v => pack_uint size v
        | _, _ => None
        end
    | None, Some digits =>
        match number_size digits, getBigInt value with
        | Some size, Some v =>
            if (- 2 ^ (size - 1) <=? v) && (v <? 2 ^ (size - 1))
            then pack_uint size (v mod 2 ^ size) else None
        | _, _ => None
        end
    | None, None =>
        match strip_prefix "bytes" type with
        | Some digits =>
            match canonical_size digits, value with
            | Some size, VStr s =>
                match getBytes s with
                | Some bs =>
                    if negb (size =? 0) && (size <=? 32)
                       && (Z.of_nat (List.length bs) =? size)
                    then Some bs else None
                | None => None
                end
            | _, _ => None
            end
        | None => None
        end
    end.

(** [ethers.solidityPacked(types, values)]: the bytes of the hex string it
    returns; [None] when it throws. *)
Fixpoint solidityPacked (types : list string) (values : list Val) : option (list byte) :=
  match types, values with
  | [], [] => Some []
  | t :: types', v :: values' =>
      match pack t v, solidityPacked types' values' with
      | Some b, Some r => Some (b ++ r)
      | _, _ => None
      end
  | _, _ => None
  end.

End Data.

(* ================================================================== *)
(** * The manual hash constructions of the debug scripts

    Each script builds the domain separator, the struct hash and the final
    hash by hand from [keccak256] and [solidityPacked].  A step that throws
    gives [None].  The members of the struct that a script reads from its
    [message] constant are read here from an argument, so that the two
    constructions can be run on the same order. *)

Module Scripts.

Import Data.
Local Open Scope list_scope.

Definition obind {A B} (m : option A) (f : A -> option B) : option B :=
  match m with
  | Some a => f a
  | None => None
  end.

Notation "x <-? m ;; k" := (obind m (fun x => k))
  (at level 61, m at next level, right associativity).

(** [ethers.toUtf8Bytes(v)] on a JS value: only strings are accepted. *)
Definition utf8_of (v : Val) : option (list byte) :=
  match v with
  | VStr s => Some (toUtf8Bytes s)
  | _ => None
  end.

(** ['\x19\x01'] *)
Definition prefix_1901 : string :=
  String (ascii_of_nat 25) (String (ascii_of_nat 1) EmptyString).

Definition domainTypeHash : string :=
  keccak256 (toUtf8Bytes
    "EIP712Domain(string name,string version,uint256 chainId,address verifyingContract)").

(** The domain separator, built the same way by both scripts. *)
Definition domainSeparatorOf (domain : Obj) : option string :=
  name_bytes <-? utf8_of (prop domain "name") ;;
  let nameHash := keccak256 name_bytes in
  version_bytes <-? utf8_of (prop domain "version") ;;
  let versionHash := keccak256 version_bytes in
  packed <-? solidityPacked
    ["bytes32"; "bytes32"; "bytes32"; "uint256"; "address"]
    [VStr domainTypeHash; VStr nameHash; VStr versionHash;
     prop domain "chainId"; prop domain "verifyingContract"] ;;
  Some (keccak256 packed).

(** The final hash, built the same way by both scripts. *)
Definition finalHashOf (domainSeparator structHash : string) : option string :=
  packed <-? solidityPacked
    ["string"; "bytes32"; "bytes32"]
    [VStr prefix_1901; VStr domainSeparator; VStr structHash] ;;
  Some (keccak256 packed).

(** ** [debugEIP712Construction] *)
Module DebugEIP712Construction.

Definition domain : option Obj :=
  verifyingContract <-? getAddress "0x9008D19f58AAbD9eD0D60971565AA8510560ab41" ;;
  Some [ ("name", VStr "Gnosis Protocol");
         ("version", VStr "v2");
         ("chainId", VNum 1);
         ("verifyingContract", VStr verifyingContract) ].

Definition message : Obj :=
  [ ("sellToken", VStr "0xA0b86991c6218b36c1d19D4a2e9Eb0cE3606eB48");
    ("buyToken", VStr "0xdAC17F958D2ee523a2206206994597C13D831ec7");
    ("receiver", VStr "0x5Dde7d9b46D1Ae3338A3d9f7d6dC2F214738Ed15");
    ("sellAmount", VStr "9077413");
    ("buyAmount", VStr "9061733");
    ("validTo", VNum 1758209010);
    ("appData", VStr "0x04bc4286b5202cee3733fe058851602586be788e278e88a29baab1f95b77a043");
    ("feeAmount", VStr "922587");
    ("kind", VStr "Sell");
    ("partiallyFillable", VBool false);
    ("sellTokenBalance", VStr "erc20");
    ("buyTokenBalance", VStr "erc20") ].

Definition orderTypeHash : string :=
  keccak256 (toUtf8Bytes
    "Order(address sellToken,address buyToken,address receiver,uint256 sellAmount,uint256 buyAmount,uint32 validTo,bytes32 appData,uint256 feeAmount,string kind,bool partiallyFillable,string sellTokenBalance,string buyTokenBalance)").

(** The three string members enter the struct hash through their hashes. *)
Definition structHashOf (message : Obj) : option string :=
  kind_bytes <-? utf8_of (prop message "kind") ;;
  let kindHash := keccak256 kind_bytes in
  sell_bytes <-? utf8_of (prop message "sellTokenBalance") ;;
  let sellTokenBalanceHash := keccak256 sell_bytes in
  buy_bytes <-? utf8_of (prop message "buyTokenBalance") ;;
  let buyTokenBalanceHash := keccak256 buy_bytes in
  packed <-? solidityPacked
    ["bytes32"; "address"; "address"; "address"; "uint256"; "uint256";
     "uint32"; "bytes32"; "uint256"; "bytes32"; "bool"; "bytes32"; "bytes32"]
    [VStr orderTypeHash;
     prop message "sellToken";
     prop message "buyToken";
     prop message "receiver";
     prop message "sellAmount";
     prop message "buyAmount";
     prop message "validTo";
     prop message "appData";
     prop message "feeAmount";
     VStr kindHash;
     prop message "partiallyFillable";
     VStr sellTokenBalanceHash;
     VStr buyTokenBalanceHash] ;;
  Some (keccak256 packed).

Definition digestOf (message : Obj) : option string :=
  domain <-? domain ;;
  domainSeparator <-? domainSeparatorOf domain ;;
  structHash <-? structHashOf message ;;
  finalHashOf domainSeparator structHash.

Definition domainSeparator : option string := obind domain domainSeparatorOf.
Definition structHash : option string := structHashOf message.
Definition digest : option string := digestOf message.

End DebugEIP712Construction.

(** ** [recoverAddressTest] *)
Module RecoverAddressTest.

Definition domain : Obj :=
  [ ("name", VStr "Gnosis Protocol");
    ("version", VStr "v2");
    ("chainId", VNum 1);
    ("verifyingContract", VStr "0x9008D19f58AAbD9eD0D60971565AA8510560ab41") ].

Definition message : Obj :=
  [ ("sellToken", VStr "0xA0b86991c6218b36c1d19D4a2e9Eb0cE3606eB48");
    ("buyToken", VStr "0xdAC17F958D2ee523a2206206994597C13D831ec7");
    ("receiver", VStr "0x0000000000000000000000000000000000000000");
    ("sellAmount", VStr "9077413");
    ("buyAmount", VStr "9061733");
    ("validTo", VNum 1758213165);
    ("appData", VStr "0x04bc4286b5202cee3733fe058851602586be788e278e88a29baab1f95b77a043");
    ("feeAmount", VStr "922587");
    ("kind", VStr "0xf3b277728b3fee749481eb3e0b3b48980dbbab78658fc419025cb16eee346775");
    ("partiallyFillable", VStr "0x00");
    ("sellTokenBalance", VStr "0x5a28e9363bb942b639270062aa6bb295f434bcdfc42c97267bf003f272060dc9");
    ("buyTokenBalance", VStr "0x5a28e9363bb942b639270062aa6bb295f434bcdfc42c97267bf003f272060dc9") ].

Definition orderTypeHash : string :=
  keccak256 (toUtf8Bytes
    "Order(address sellToken,address buyToken,address receiver,uint256 sellAmount,uint256 buyAmount,uint32 validTo,bytes32 appData,uint256 feeAmount,bytes32 kind,bytes1 partiallyFillable,bytes32 sellTokenBalance,bytes32 buyTokenBalance)").

(** Every member is packed raw, the [bytes32] ones included. *)
Definition structHashOf (message : Obj) : option string :=
  packed <-? solidityPacked
    ["bytes32"; "address"; "address"; "address"; "uint256"; "uint256";
     "uint32"; "bytes32"; "uint256"; "bytes32"; "bytes1"; "bytes32"; "bytes32"]
    [VStr orderTypeHash;
     prop message "sellToken";
     prop message "buyToken";
     prop message "receiver";
     prop message "sellAmount";
     prop message "buyAmount";
     prop message "validTo";
     prop message "appData";
     prop message "feeAmount";
     prop message "kind";
     prop message "partiallyFillable";
     prop message "sellTokenBalance";
     prop message "buyTokenBalance"] ;;
  Some (keccak256 packed).

Definition ourEIP712HashOf (message : Obj) : option string :=
  domainSeparator <-? domainSeparatorOf domain ;;
  structHash <-? structHashOf message ;;
  finalHashOf domainSeparator structHash.

Definition domainSeparator : option string := domainSeparatorOf domain.
Definition structHash : option string := structHashOf message.
Definition ourEIP712Hash : option string := ourEIP712HashOf message.

End RecoverAddressTest.

End Scripts.

(* ================================================================== *)
(** * Views of [signTypedData] used in the statements *)

Local Open Scope list_scope.

(** The primary type as [checkFieldOrder] accepts it: the key found, unless
    it is falsy (the empty string). *)
Definition primaryTypeOf (types : Types) : option string :=
  match findPrimary types with
  | Some key => if truthy (VStr key) then Some key else None
  | None => None
  end.

(** Whether the loop of [checkFieldOrder] throws: it has a name to visit
    and the message has an own member named ["hasOwnProperty"]. *)
Definition callThrows (typeOrder : list string) (message : Obj) : bool :=
  match typeOrder with
  | [] => false
  | _ :: _ => hasOwnProperty message "hasOwnProperty"
  end.

(** The value tree [signTypedData] goes on with once the field-order check
    has returned: the value as given when there is no primary type or when
    the check calls it ordered, else the reordered message. *)
Definition reconciled (types : Types) (value : Obj) : Obj :=
  match primaryTypeOf types with
  | Some primaryType =>
      match lookup primaryType types with
      | Some fields =>
          if same_strings (map name fields) (keys value) then value
          else reorder (map name fields) value
      | None => value
      end
  | None => value
  end.

(** The members of the primary type, if there is one, have ordinary
    names. *)
Definition ordinaryMembers (types : Types) : Prop :=
  forall primaryType fields,
    primaryTypeOf types = Some primaryType ->
    lookup primaryType types = Some fields ->
    Forall (fun k => ordinaryName k = true) (map name fields).

(** The deadline [signTypedData] and [signPermit] go on with: the one given
    when it is truthy, else one generated from the clock, which is read. *)
Definition resolveDeadline (deadline : Val) (w : World) : Val * World :=
  if truthy deadline then (deadline, w)
  else (VNum (readings w (reads w) / 1000 + 3600),
        mkWorld (readings w) (S (reads w))).

(** The value tree handed to the library. *)
Definition signedMessage (types : Types) (value : Obj) (deadline : Val) : Obj :=
  match declaresDeadline types with
  | Some true => set "deadline" deadline (spread (reconciled types value))
  | _ => spread (reconciled types value)
  end.

(** What [signTypedData] does with the value tree it settled on: sign it,
    recover the address, build the result; an exception is rethrown under
    the prefix of the [catch] clause. *)
Definition signAndRecover {E : Ethers} (this : EIP712Signer) (domain : Obj)
    (types : Types) (message : Obj) (deadline : Val) : Outcome SigningResult :=
  match TypedDataEncoder_hash domain types message with
  | Thrown e => Thrown ("Failed to sign typed data: " ++ e)%string
  | Returned digest =>
      match recoverAddress digest (sign (wallet this) digest) with
      | Thrown e => Thrown ("Failed to sign typed data: " ++ e)%string
      | Returned recovered =>
          Returned (mkSigningResult E (sign (wallet this) digest) deadline
                      recovered message (address (wallet this)))
      end
  end.

(** The owner [signPermit] writes into the message. *)
Definition permitOwner {E : Ethers} (this : EIP712Signer) (permitData : Obj)
    : Outcome string :=
  if truthy (prop permitData "owner") then getAddress (prop permitData "owner")
  else Returned (address (wallet this)).

(** The members of [declared] in order, each once. *)
Definition dedup (declared : list string) : list string :=
  fold_left
    (fun acc k => if existsb (String.eqb k) acc then acc else acc ++ [k])
    declared [].

(** [message] without the properties whose names are not in [declared]. *)
Definition declaredOnly (declared : list string) (message : Obj) : Obj :=
  filter (fun kv => existsb (String.eqb (fst kv)) declared) message.

(* ================================================================== *)
(** * Stand-ins for the library and the data of the repository's examples *)

Module Examples.

(** A library whose typed-data hash is the payload itself, whose signature
    names the signing wallet and the digest, and whose recovery reads the
    wallet back. *)
Definition EchoLibrary : Ethers := {|
  Wallet := string;
  Digest := Obj * Types * Obj;
  Signature := string * (Obj * Types * Obj);
  address := fun wallet => wallet;
  TypedDataEncoder_hash := fun domain types value => Returned (domain, types, value);
  sign := fun wallet digest => (wallet, digest);
  recoverAddress := fun _ signature => Returned (fst signature);
  getAddress := fun v =>
    match v with
    | VStr s => Returned s
    | _ => Thrown "invalid address"
    end
|}.

Definition testAddress : string := "0x5Dde7d9b46D1Ae3338A3d9f7d6dC2F214738Ed15".

Definition echoSigner : @EIP712Signer EchoLibrary := @mkSigner EchoLibrary testAddress.

(** A world whose clock always reads [ms]. *)
Definition worldAt (ms : Z) : World := mkWorld (fun _ => ms) 0.

(** Test 3 of [test-examples.js], with a verifying contract that
    [ethers.getAddress] accepts. *)
Definition voteDomain : Obj :=
  [ ("name", VStr "TestDApp");
    ("version", VStr "1");
    ("chainId", VNum 1);
    ("verifyingContract", VStr "0x9008D19f58AAbD9eD0D60971565AA8510560ab41") ].

Definition voteTypes : Types :=
  [ ("Vote",
     [ mkField "proposal" "uint256";
       mkField "support" "bool";
       mkField "voter" "address" ]) ].

Definition voteMessage : Obj :=
  [ ("proposal", VNum 1); ("support", VBool true); ("voter", VStr testAddress) ].

(** The same vote with its keys in another order. *)
Definition voteMessageShuffled : Obj :=
  [ ("support", VBool true); ("proposal", VNum 1); ("voter", VStr testAddress) ].

(** The same vote with a member the type does not declare. *)
Definition voteMessageExtra : Obj :=
  [ ("support", VBool true); ("memo", VStr "hello"); ("proposal", VNum 1);
    ("voter", VStr testAddress) ].

(** The vote, in declared order, with an undeclared member named
    ["hasOwnProperty"], as [JSON.parse] builds it from a [--custom-json]
    argument whose message has such a member. *)
Definition voteMessageShadowing : Obj :=
  [ ("proposal", VNum 1); ("support", VBool true); ("voter", VStr testAddress);
    ("hasOwnProperty", VNum 1) ].

(** Test 4 of [test-examples.js]. *)
Definition actionDomain : Obj :=
  [ ("name", VStr "DeadlineTest");
    ("version", VStr "1");
    ("chainId", VNum 1);
    ("verifyingContract", VStr "0x1234567890123456789012345678901234567890") ].

Definition actionTypes : Types :=
  [ ("Action",
     [ mkField "user" "address";
       mkField "action" "string";
       mkField "deadline" "uint256" ]) ].

Definition actionMessage : Obj :=
  [ ("user", VStr testAddress); ("action", VStr "withdraw") ].

(** The same action with a deadline of the caller's own. *)
Definition actionMessageWithDeadline : Obj :=
  [ ("user", VStr testAddress); ("action", VStr "withdraw"); ("deadline", VNum 5) ].

(** Test 2 of [test-examples.js], with a verifying contract that
    [ethers.getAddress] accepts. *)
Definition permitData : Obj :=
  [ ("tokenName", VStr "Test Token");
    ("chainId", VNum 1);
    ("verifyingContract", VStr "0xA0b86991c6218b36c1d19D4a2e9Eb0cE3606eB48");
    ("spender", VStr "0x7a250d5630B4cF539739dF2C5dAcb4c659F2488D");
    ("value", VStr "1000000000000000000");
    ("nonce", VNum 0) ].

(** A type graph that lists an auxiliary type before its root type, and a
    message of the root type. *)
Definition mailTypes : Types :=
  [ ("Person", [ mkField "name" "string"; mkField "wallet" "address" ]);
    ("Mail",
     [ mkField "from" "Person"; mkField "to" "Person";
       mkField "contents" "string" ]) ].

Definition mailMessage : Obj :=
  [ ("from", VObj [ ("wallet", VStr testAddress); ("name", VStr "Cow") ]);
    ("to", VObj [ ("name", VStr "Bob"); ("wallet", VStr testAddress) ]);
    ("contents", VStr "Hello, Bob!") ].

(** The order of the debug script, its three string members turned into the
    [bytes32] values of their hashes and its boolean into a [bytes1]. *)
Definition hashedStrings (message : Obj) : option Obj :=
  match Scripts.utf8_of (prop message "kind"),
        Scripts.utf8_of (prop message "sellTokenBalance"),
        Scripts.utf8_of (prop message "buyTokenBalance") with
  | Some kind, Some sell, Some buy =>
      Some (set "kind" (VStr (Data.keccak256 kind))
           (set "sellTokenBalance" (VStr (Data.keccak256 sell))
           (set "buyTokenBalance" (VStr (Data.keccak256 buy))
           (set "partiallyFillable"
              (VStr (if truthy (prop message "partiallyFillable") then "0x01" else "0x00"))
              message))))
  | _, _, _ => None
  end.

(** The same order, its three strings written out as [bytes32] values:
    the bytes of the string, padded with zeros on the right. *)
Definition asBytes32 (v : Val) : option Val :=
  match v with
  | VStr s =>
      let bytes := Data.toUtf8Bytes s in
      if (List.length bytes <=? 32)%nat
      then Some (VStr (Data.hexlify (bytes ++ repeat x00 (32 - List.length bytes))))
      else None
  | _ => None
  end.

Definition rawStrings (message : Obj) : option Obj :=
  match asBytes32 (prop message "kind"),
        asBytes32 (prop message "sellTokenBalance"),
        asBytes32 (prop message "buyTokenBalance") with
  | Some kind, Some sell, Some buy =>
      Some (set "kind" kind
           (set "sellTokenBalance" sell
           (set "buyTokenBalance" buy
           (set "partiallyFillable"
              (VStr (if truthy (prop message "partiallyFillable") then "0x01" else "0x00"))
              message))))
  | _, _, _ => None
  end.

(** The slots of the twelve members of an order, after the type hash, as
    [recover-test.js] packs them: the [bytes32] ones raw. *)
Definition memberSlots (message : Obj) : option (list byte) :=
  Data.solidityPacked
    ["address"; "address"; "address"; "uint256"; "uint256"; "uint32";
     "bytes32"; "uint256"; "bytes32"; "bytes1"; "bytes32"; "bytes32"]
    [prop message "sellToken";
     prop message "buyToken";
     prop message "receiver";
     prop message "sellAmount";
     prop message "buyAmount";
     prop message "validTo";
     prop message "appData";
     prop message "feeAmount";
     prop message "kind";
     prop message "partiallyFillable";
     prop message "sellTokenBalance";
     prop message "buyTokenBalance"].

(** The mail graph with its root type listed first, and a message whose
    keys, on both levels, are not in declared order. *)
Definition mailTypesRootFirst : Types :=
  [ ("Mail",
     [ mkField "from" "Person"; mkField "to" "Person";
       mkField "contents" "string" ]);
    ("Person", [ mkField "name" "string"; mkField "wallet" "address" ]) ].

Definition mailMessageShuffled : Obj :=
  [ ("to", VObj [ ("name", VStr "Bob"); ("wallet", VStr testAddress) ]);
    ("contents", VStr "Hello, Bob!");
    ("from", VObj [ ("wallet", VStr testAddress); ("name", VStr "Cow") ]) ].

End Examples.

(* ================================================================== *)
(** * The command line of [eip712-signer.js]

    The pieces of [main] between reading [process.argv] and printing: the
    loop that turns the arguments into [options], the permit branch and the
    custom-message branch.  A branch ends either with the result that
    [main] then prints, or with the line it writes with [console.error]
    before [process.exit(1)], which is what a [Thrown] outcome carries
    here.  The custom-message branch is taken from the point where
    [JSON.parse] has returned a type graph and a message. *)

Module Cli.

Local Open Scope string_scope.

(** [s.startsWith(p)] *)
Definition startsWith (s p : string) : bool := String.prefix p s.

(** [s.replace(pattern, replacement)] with a string pattern: the first
    occurrence only. *)
Fixpoint replace_first (pattern replacement s : string) : string :=
  match Data.strip_prefix pattern s with
  | Some rest => replacement ++ rest
  | None =>
      match s with
      | EmptyString => EmptyString
      | String c t => String c (replace_first pattern replacement t)
      end
  end.

(** [s.replace(/-/g, '_')] *)
Fixpoint underscores (s : string) : string :=
  match s with
  | EmptyString => EmptyString
  | String c t => String (if Ascii.eqb c "-" then "_"%char else c) (underscores t)
  end.

(** [arg.replace('--', '').replace(/-/g, '_')] *)
Definition optionKey (arg : string) : string :=
  underscores (replace_first "--" "" arg).

(** The loop over [args[1..]]: [args] is what is left to read. *)
Fixpoint parseOptions (args : list string) (options : Obj) : Obj :=
  match args with
  | [] => options
  | arg :: rest =>
      if startsWith arg "--" then
        let key := optionKey arg in
        match rest with
        | [] => set key (VBool true) options
        | next :: rest' =>
            if startsWith next "--"
            then parseOptions rest (set key (VBool true) options)
            else parseOptions rest' (set key (VStr next) options)
        end
      else parseOptions rest options
  end.

(** The options of a command line: [args[0]] is the private key. *)
Definition optionsOf (args : list string) : Obj := parseOptions (tl args) [].

(** [a || b] *)
Definition or_else (a b : Val) : Val := if truthy a then a else b.

Definition is_space (c : ascii) : bool :=
  let n := nat_of_ascii c in
  ((n =? 32) || ((9 <=? n) && (n <=? 13)))%nat.

Fixpoint skip_spaces (s : string) : string :=
  match s with
  | String c t => if is_space c then skip_spaces t else s
  | EmptyString => s
  end.

(** The longest run of digits of the radix at the head of [s]: its value,
    and whether there was any digit. *)
Fixpoint leading_digits (radix : Z) (acc : Z) (seen : bool) (s : string) : option Z :=
  match s with
  | EmptyString => if seen then Some acc else None
  | String c t =>
      match Data.hex_value c with
      | Some d =>
          if (d <? radix)%Z then leading_digits radix (radix * acc + d)%Z true t
          else if seen then Some acc else None
      | None => if seen then Some acc else None
      end
  end.

Definition unsigned_int (s : string) : option Z :=
  match s with
  | String "0" (String "x" t) => leading_digits 16 0 false t
  | String "0" (String "X" t) => leading_digits 16 0 false t
  | _ => leading_digits 10 0 false s
  end.

(** [parseInt(s)] of a string, without radix: [None] is [NaN].  The white
    space skipped is the ASCII one.  The integer is the exact one the digits
    denote, which is what JS returns while it is a safe integer. *)
Definition parseIntString (s : string) : option Z :=
  match skip_spaces s with
  | String "-" t => option_map Z.opp (unsigned_int t)
  | String "+" t => unsigned_int t
  | t => unsigned_int t
  end.

(** [parseInt(v)] of what an option can hold: a string, [true], or
    [undefined] when the option is absent; the last two give [NaN]. *)
Definition parseInt (v : Val) : option Z :=
  match v with
  | VStr s => parseIntString s
  | VNum n => Some n
  | _ => None
  end.

(** [parseInt(v) || d] *)
Definition parseInt_or (v : Val) (d : Z) : Z :=
  match parseInt v with
  | Some n => if (n =? 0)%Z then d else n
  | None => d
  end.

(** A number computed by [parseInt] as a deadline.  [NaN] is written
    [VNull]: [signPermit] and [signTypedData] only test a deadline for
    truthiness before replacing it, and both are falsy. *)
Definition deadlineNumber (n : option Z) : Val :=
  match n with
  | Some n => VNum n
  | None => VNull
  end.

(** The [permitData] object literal of the permit branch. *)
Definition permitDataOf (options : Obj) : Obj :=
  [ ("tokenName", or_else (prop options "domain_name") (VStr "Token"));
    ("tokenVersion", or_else (prop options "domain_version") (VStr "1"));
    ("chainId", VNum (parseInt_or (prop options "chain_id") 1));
    ("verifyingContract", prop options "verifying_contract");
    ("owner", prop options "owner");
    ("spender", prop options "spender");
    ("value", prop options "value");
    ("nonce", VNum (parseInt_or (prop options "nonce") 0));
    ("deadline",
     if truthy (prop options "deadline")
     then deadlineNumber (parseInt (prop options "deadline"))
     else VNull) ].

Definition permitRequired : string :=
  "Error: For permit signatures, --verifying-contract, --spender, and --value are required".

(** [ethers.ZeroAddress] *)
Definition ZeroAddress : string := "0x0000000000000000000000000000000000000000".

Section Branches.
Context {E : Ethers}.
Variable signer : EIP712Signer.

(** The branch [if (options.permit)]. *)
Definition permitCommand (options : Obj) : M SigningResult :=
  let permitData := permitDataOf options in
  if negb (truthy (prop permitData "verifyingContract"))
     || negb (truthy (prop permitData "spender"))
     || negb (truthy (prop permitData "value"))
  then throw permitRequired
  else
    try_catch (signPermit signer permitData)
      (fun message => throw ("Error: " ++ message)).

(** The [domain] object literal of the custom-message branch. *)
Definition customDomain (options : Obj) : Outcome Obj :=
  match
    (if truthy (prop options "verifying_contract")
     then getAddress (prop options "verifying_contract")
     else Returned ZeroAddress)
  with
  | Returned verifyingContract =>
      Returned
        [ ("name", or_else (prop options "domain_name") (VStr "Custom"));
          ("version", or_else (prop options "domain_version") (VStr "1"));
          ("chainId", VNum (parseInt_or (prop options "chain_id") 1));
          ("verifyingContract", VStr verifyingContract) ]
  | Thrown e => Thrown e
  end.

(** [deadlineDuration] and [deadline] of the custom-message branch.  With a
    duration that is [NaN] the clock is still read and the deadline is
    [NaN]. *)
Definition customDeadline (options : Obj) : M Val :=
  let deadlineDuration :=
    if truthy (prop options "deadline_duration")
    then parseInt (prop options "deadline_duration")
    else Some 3600 in
  if truthy (prop options "deadline")
  then ret (deadlineNumber (parseInt (prop options "deadline")))
  else
    match deadlineDuration with
    | Some duration => (d <- generateDeadline duration ;; ret (VNum d))%js
    | None => (_ <- Date_now ;; ret (deadlineNumber None))%js
    end.

(** The branch [else if (options.custom_json)], once [customData] is
    parsed. *)
Definition customCommand (options : Obj) (types : Types) (message : Obj)
    : M SigningResult :=
  try_catch
    (domain <- lift (customDomain options) ;;
     deadline <- customDeadline options ;;
     signTypedData signer domain types message deadline)%js
    (fun message => throw ("Error: " ++ message)).

End Branches.

End Cli.

(** Further data for the examples. *)
Module MoreExamples.

Local Open Scope string_scope.

(** A type whose deadline is declared first. *)
Definition deadlineFirstTypes : Types :=
  [ ("Action",
     [ mkField "deadline" "uint256";
       mkField "user" "address";
       mkField "action" "string" ]) ].

(** A type graph that only describes the domain. *)
Definition domainOnlyTypes : Types :=
  [ ("EIP712Domain",
     [ mkField "name" "string"; mkField "version" "string" ]) ].

(** A library like [EchoLibrary] that refuses to hash a value tree without
    a ["voter"]. *)
Definition StrictLibrary : Ethers := {|
  Wallet := string;
  Digest := Obj * Types * Obj;
  Signature := string * (Obj * Types * Obj);
  address := fun wallet => wallet;
  TypedDataEncoder_hash := fun domain types value =>
    if hasOwnProperty value "voter" then Returned (domain, types, value)
    else Thrown "missing value for voter";
  sign := fun wallet digest => (wallet, digest);
  recoverAddress := fun _ signature => Returned (fst signature);
  getAddress := fun v =>
    match v with
    | VStr s => if (String.length s =? 42)%nat then Returned s else Thrown "invalid address"
    | _ => Thrown "invalid address"
    end
|}.

Definition strictSigner : @EIP712Signer StrictLibrary :=
  @mkSigner StrictLibrary Examples.testAddress.

(** The first command line of the usage text, after the private key, with
    a verifying contract that [ethers.getAddress] accepts. *)
Definition permitArgs : list string :=
  [ "0x1234"; "--permit";
    "--domain-name"; "USD Coin";
    "--chain-id"; "1";
    "--verifying-contract"; "0xA0b86991c6218b36c1d19D4a2e9Eb0cE3606eB48";
    "--spender"; "0x7a250d5630B4cF539739dF2C5dAcb4c659F2488D";
    "--value"; "1000000000000000000";
    "--nonce"; "0" ].

End MoreExamples.

(* ================================================================== *)
(** * Objects: properties of [lookup], [set], [spread] and [reorder] *)

Section ObjectFacts.
Context {A : Type}.
Implicit Types (o : ObjOf A) (k : string) (v : A).

Lemma hasOwnProperty_In o k : hasOwnProperty o k = true <-> In k (keys o).
Proof.
  unfold hasOwnProperty. rewrite existsb_exists. split.
  - intros [x [Hin Heq]]. apply String.eqb_eq in Heq. now subst.
  - intros Hin. exists k. split; [assumption | apply String.eqb_refl].
Qed.

Lemma hasOwnProperty_false o k : hasOwnProperty o k = false <-> ~ In k (keys o).
Proof.
  rewrite <- hasOwnProperty_In. destruct (hasOwnProperty o k); split; intros; congruence.
Qed.

Lemma lookup_None o k : lookup k o = None <-> ~ In k (keys o).
Proof.
  induction o as [|[k' v'] t IH]; simpl.
  - tauto.
  - destruct (String.eqb_spec k' k) as [->|Hne].
    + split; [discriminate | intros H; exfalso; apply H; now left].
    + rewrite IH. split; [intros H [?|?]; congruence | tauto].
Qed.

Lemma lookup_Some_In o k v : lookup k o = Some v -> In (k, v) o.
Proof.
  induction o as [|[k' v'] t IH]; simpl; [discriminate|].
  destruct (String.eqb_spec k' k) as [->|Hne].
  - intros [= ->]. now left.
  - intros H. right. now apply IH.
Qed.


Lemma keys_set o k v :
  keys (set k v o) = if hasOwnProperty o k then keys o else keys o ++ [k].
Proof.
  unfold hasOwnProperty. induction o as [|[k' v'] t IH]; simpl; [reflexivity|].
  rewrite (String.eqb_sym k k').
  destruct (String.eqb_spec k' k) as [->|Hne]; simpl; [reflexivity|].
  rewrite IH. now destruct (existsb (String.eqb k) (keys t)).
Qed.

Lemma set_absent o k v : hasOwnProperty o k = false -> set k v o = o ++ [(k, v)].
Proof.
  unfold hasOwnProperty. induction o as [|[k' v'] t IH]; simpl; [reflexivity|].
  rewrite (String.eqb_sym k k').
  destruct (String.eqb_spec k' k) as [->|Hne]; simpl; [discriminate|].
  intros H. now rewrite IH.
Qed.

Lemma lookup_set_same o k v : lookup k (set k v o) = Some v.
Proof.
  induction o as [|[k' v'] t IH]; simpl.
  - now rewrite String.eqb_refl.
  - destruct (String.eqb_spec k' k) as [->|Hne]; simpl.
    + now rewrite String.eqb_refl.
    + destruct (String.eqb_spec k' k); [contradiction | assumption].
Qed.

Lemma lookup_set_other o k k' v : k <> k' -> lookup k' (set k v o) = lookup k' o.
Proof.
  intros Hne. induction o as [|[k0 v0] t IH]; simpl.
  - destruct (String.eqb_spec k k'); [contradiction | reflexivity].
  - destruct (String.eqb_spec k0 k) as [->|Hne0]; simpl.
    + destruct (String.eqb_spec k k'); [contradiction | reflexivity].
    + now rewrite IH.
Qed.

Lemma wf_set o k v : wf o -> wf (set k v o).
Proof.
  unfold wf. intros Hnd. rewrite keys_set.
  destruct (hasOwnProperty o k) eqn:Hhas; [assumption|].
  apply hasOwnProperty_false in Hhas.
  eapply Permutation_NoDup; [apply Permutation_cons_append|].
  now constructor.
Qed.

(** Copying a well-formed object property by property gives it back. *)
Lemma spread_from o acc :
  wf (acc ++ o) ->
  fold_left (fun a kv => set (fst kv) (snd kv) a) o acc = acc ++ o.
Proof.
  revert acc. induction o as [|[k v] t IH]; intros acc Hwf; simpl.
  - now rewrite app_nil_r.
  - rewrite set_absent.
    + rewrite IH; rewrite <- app_assoc; [reflexivity | exact Hwf].
    + apply hasOwnProperty_false. unfold wf, keys in Hwf.
      rewrite map_app in Hwf. simpl in Hwf.
      apply NoDup_remove_2 in Hwf. intros Hin. apply Hwf.
      apply in_or_app. now left.
Qed.

Lemma spread_wf o : wf o -> spread o = o.
Proof. intros Hwf. unfold spread. now rewrite spread_from. Qed.

Lemma wf_fold_set (l : list (string * A)) acc :
  wf acc -> wf (fold_left (fun a kv => set (fst kv) (snd kv) a) l acc).
Proof.
  revert acc. induction l as [|kv t IH]; intros acc Hwf; simpl; [assumption|].
  apply IH. now apply wf_set.
Qed.

Lemma wf_spread o : wf (spread o).
Proof. apply wf_fold_set. constructor. Qed.


Lemma hasOwnProperty_lookup o k :
  hasOwnProperty o k = match lookup k o with Some _ => true | None => false end.
Proof.
  destruct (lookup k o) eqn:H.
  - apply hasOwnProperty_In. destruct (hasOwnProperty o k) eqn:Hh.
    + now apply hasOwnProperty_In.
    + apply hasOwnProperty_false, lookup_None in Hh. congruence.
  - now apply hasOwnProperty_false, lookup_None.
Qed.

(** Objects with the same keys in the same order and the same properties
    are the same object. *)
Lemma same_keys_same_lookup o1 o2 :
  wf o1 -> keys o1 = keys o2 ->
  (forall k, In k (keys o1) -> lookup k o1 = lookup k o2) -> o1 = o2.
Proof.
  revert o2. induction o1 as [|[k v] t IH]; intros [|[k2 v2] t2] Hwf Hk Hl;
    simpl in *; try discriminate; [reflexivity|].
  injection Hk as -> Hk. inversion Hwf as [|? ? Hnotin Hwf']; subst.
  pose proof (Hl k2 (or_introl eq_refl)) as H0. rewrite String.eqb_refl in H0.
  injection H0 as ->. f_equal. apply IH; [assumption..|].
  intros k Hin. specialize (Hl k (or_intror Hin)).
  destruct (String.eqb_spec k2 k) as [->|]; [contradiction | assumption].
Qed.

End ObjectFacts.

Lemma same_strings_eq a b : same_strings a b = true <-> a = b.
Proof.
  revert b. induction a as [|x a IH]; intros [|y b]; simpl; split; try congruence.
  - intros H. apply andb_prop in H as [Hx Ha]. apply String.eqb_eq in Hx.
    apply IH in Ha. congruence.
  - intros [= -> ->]. rewrite String.eqb_refl. now apply IH.
Qed.

Lemma prop_of_lookup (o : Obj) k v : lookup k o = Some v -> prop o k = v.
Proof. unfold prop. now intros ->. Qed.

Lemma lookup_of_has (o : Obj) k :
  hasOwnProperty o k = true -> lookup k o = Some (prop o k).
Proof.
  rewrite hasOwnProperty_lookup. unfold prop.
  destruct (lookup k o); [reflexivity | discriminate].
Qed.

Lemma existsb_eqb_In k (l : list string) : existsb (String.eqb k) l = true <-> In k l.
Proof.
  rewrite existsb_exists. split.
  - intros [x [Hin Heq]]. apply String.eqb_eq in Heq. now subst.
  - intros Hin. exists k. split; [assumption | apply String.eqb_refl].
Qed.


Lemma keys_reorder_from (declared : list string) (m acc : Obj) :
  keys (fold_left
          (fun r k => if hasOwnProperty m k then set k (prop m k) r else r)
          declared acc)
  = fold_left
      (fun a k => if existsb (String.eqb k) a then a else a ++ [k])
      (filter (hasOwnProperty m) declared) (keys acc).
Proof.
  revert acc. induction declared as [|k t IH]; intros acc; simpl; [reflexivity|].
  destruct (hasOwnProperty m k); simpl; [|apply IH].
  rewrite IH, keys_set. reflexivity.
Qed.

(** The keys of the reordered message: the declared members the message has,
    in declared order, each once. *)
Lemma keys_reorder (declared : list string) (m : Obj) :
  keys (reorder declared m) = dedup (filter (hasOwnProperty m) declared).
Proof. apply keys_reorder_from. Qed.

Lemma dedup_from (l acc : list string) :
  NoDup (acc ++ l) ->
  fold_left (fun a k => if existsb (String.eqb k) a then a else a ++ [k]) l acc
  = acc ++ l.
Proof.
  revert acc. induction l as [|k t IH]; intros acc Hnd; simpl.
  - now rewrite app_nil_r.
  - destruct (existsb (String.eqb k) acc) eqn:Hex.
    + apply existsb_eqb_In in Hex. apply NoDup_remove_2 in Hnd.
      exfalso. apply Hnd. apply in_or_app. now left.
    + rewrite IH; rewrite <- app_assoc; [reflexivity | exact Hnd].
Qed.

Lemma dedup_NoDup (l : list string) : NoDup l -> dedup l = l.
Proof. intros H. unfold dedup. now rewrite dedup_from. Qed.

Lemma wf_reorder (declared : list string) (m : Obj) : wf (reorder declared m).
Proof.
  unfold reorder. assert (H : wf (@nil (string * Val))) by constructor.
  revert H. generalize (@nil (string * Val)).
  induction declared as [|k t IH]; intros acc H; simpl; [assumption|].
  apply IH. destruct (hasOwnProperty m k); [now apply wf_set | assumption].
Qed.

Lemma lookup_reorder_from (declared : list string) (m acc : Obj) k :
  lookup k (fold_left
              (fun r k => if hasOwnProperty m k then set k (prop m k) r else r)
              declared acc)
  = if existsb (String.eqb k) declared && hasOwnProperty m k
    then lookup k m else lookup k acc.
Proof.
  revert acc. induction declared as [|k0 t IH]; intros acc; simpl; [reflexivity|].
  rewrite IH. destruct (String.eqb_spec k k0) as [->|Hne]; simpl.
  - destruct (hasOwnProperty m k0) eqn:Hhas.
    + rewrite andb_true_r. rewrite lookup_set_same, (lookup_of_has _ _ Hhas).
      now destruct (existsb (String.eqb k0) t).
    + now rewrite andb_false_r.
  - destruct (hasOwnProperty m k0); [|reflexivity].
    rewrite lookup_set_other by congruence. reflexivity.
Qed.

(** A property of the reordered message is the message's own property,
    value unchanged; the declared members the message has are all there. *)
Lemma lookup_reorder (declared : list string) (m : Obj) k :
  lookup k (reorder declared m)
  = if existsb (String.eqb k) declared then lookup k m else None.
Proof.
  unfold reorder. rewrite lookup_reorder_from. simpl.
  destruct (existsb (String.eqb k) declared); simpl; [|reflexivity].
  rewrite hasOwnProperty_lookup. now destruct (lookup k m).
Qed.

Lemma filter_all {A} (p : A -> bool) (l : list A) :
  (forall x, In x l -> p x = true) -> filter p l = l.
Proof.
  induction l as [|x t IH]; intros H; simpl; [reflexivity|].
  rewrite (H x (or_introl eq_refl)). f_equal. apply IH. intros y Hy. apply H. now right.
Qed.

(** A message whose keys are the declared order is its own reordering. *)
Lemma reorder_own_keys (m : Obj) : wf m -> reorder (keys m) m = m.
Proof.
  intros Hwf. apply same_keys_same_lookup.
  - apply wf_reorder.
  - rewrite keys_reorder, filter_all; [now apply dedup_NoDup|].
    intros k Hin. now apply hasOwnProperty_In.
  - intros k _. rewrite lookup_reorder.
    destruct (existsb (String.eqb k) (keys m)) eqn:Hex; [reflexivity|].
    symmetry. apply lookup_None. intros Hin. apply existsb_eqb_In in Hin. congruence.
Qed.




(* ================================================================== *)
(** * The field-order check *)

Lemma findPrimary_lookup (types : Types) pt :
  findPrimary types = Some pt -> exists fields, lookup pt types = Some fields.
Proof.
  unfold findPrimary. intros H. apply find_some in H as [Hin _].
  destruct (lookup pt types) as [fields|] eqn:Hl; [now exists fields|].
  apply lookup_None in Hl. contradiction.
Qed.

Lemma primaryTypeOf_found (types : Types) pt :
  primaryTypeOf types = Some pt -> findPrimary types = Some pt /\ pt <> ""%string.
Proof.
  unfold primaryTypeOf. destruct (findPrimary types) as [key|]; [|discriminate].
  simpl. destruct (String.eqb_spec key ""); simpl; [discriminate|].
  intros [= ->]. now split.
Qed.

(** The loop throws at its first call when the message shadows
    [hasOwnProperty], and builds [reorder] otherwise. *)
Lemma forEachField_eq (typeOrder : list string) (message acc : Obj) :
  forEachField typeOrder message acc
  = if callThrows typeOrder message
    then Thrown "message.hasOwnProperty is not a function"
    else Returned
           (fold_left
              (fun r k => if hasOwnProperty message k then set k (prop message k) r else r)
              typeOrder acc).
Proof.
  destruct typeOrder as [|k t]; [reflexivity|].
  unfold callThrows.
  destruct (hasOwnProperty message "hasOwnProperty") eqn:Hs.
  - simpl. unfold message_hasOwnProperty. now rewrite Hs.
  - generalize (k :: t). clear k t. intros l. revert acc.
    induction l as [|k t IH]; intros acc; simpl; [reflexivity|].
    unfold message_hasOwnProperty. rewrite Hs.
    destruct (hasOwnProperty message k); apply IH.
Qed.

Lemma checkFieldOrder_primary (types : Types) (message : Obj) pt :
  primaryTypeOf types = Some pt ->
  exists fields,
    lookup pt types = Some fields /\
    checkFieldOrder types message
    = (if callThrows (map name fields) message
       then Thrown "message.hasOwnProperty is not a function"
       else Returned (mkOrderCheck (same_strings (map name fields) (keys message))
                        (map name fields) (keys message)
                        (reorder (map name fields) message) (Some pt))).
Proof.
  intros H. apply primaryTypeOf_found in H as [Hfind Hne].
  destruct (findPrimary_lookup _ _ Hfind) as [fields Hl].
  exists fields. split; [assumption|].
  unfold checkFieldOrder. rewrite Hfind. simpl.
  destruct (String.eqb_spec pt ""); [contradiction|]. simpl. rewrite Hl.
  rewrite forEachField_eq. now destruct (callThrows (map name fields) message).
Qed.

Lemma checkFieldOrder_no_primary (types : Types) (message : Obj) :
  primaryTypeOf types = None ->
  checkFieldOrder types message = Returned (mkOrderCheck true [] [] message None).
Proof.
  unfold primaryTypeOf, checkFieldOrder.
  destruct (findPrimary types) as [key|]; [|reflexivity].
  destruct (truthy (VStr key)); [discriminate | reflexivity].
Qed.

(** The only exception of the check is the one of the shadowed call. *)
Lemma checkFieldOrder_thrown (types : Types) (message : Obj) e :
  checkFieldOrder types message = Thrown e ->
  e = "message.hasOwnProperty is not a function"%string /\
  hasOwnProperty message "hasOwnProperty" = true /\
  exists pt fields,
    primaryTypeOf types = Some pt /\ lookup pt types = Some fields /\ fields <> [].
Proof.
  destruct (primaryTypeOf types) as [pt|] eqn:H.
  - destruct (checkFieldOrder_primary types message pt H) as [fields [Hl ->]].
    destruct (callThrows (map name fields) message) eqn:Hc; [|discriminate].
    intros [= <-]. split; [reflexivity|].
    destruct fields as [|f t]; [discriminate|]. simpl in Hc.
    split; [assumption|]. exists pt, (f :: t). now repeat split.
  - rewrite checkFieldOrder_no_primary by assumption. discriminate.
Qed.


(** Once the check has returned, [signTypedData] goes on with [reconciled]. *)
Lemma checkFieldOrder_reconciled (types : Types) (message : Obj) orderCheck :
  checkFieldOrder types message = Returned orderCheck ->
  (if negb (isOrdered orderCheck) then reorderedMessage orderCheck else message)
  = reconciled types message.
Proof.
  unfold reconciled. destruct (primaryTypeOf types) as [pt|] eqn:H.
  - destruct (checkFieldOrder_primary types message pt H) as [fields [Hl ->]].
    rewrite Hl. destruct (callThrows (map name fields) message); [discriminate|].
    intros [= <-]. simpl.
    now destruct (same_strings (map name fields) (keys message)).
  - rewrite checkFieldOrder_no_primary by assumption. now intros [= <-].
Qed.

Lemma reconciled_no_primary (types : Types) (message : Obj) :
  primaryTypeOf types = None -> reconciled types message = message.
Proof.
  intros H. unfold reconciled. now rewrite H.
Qed.

(** With a primary type, a well-formed message goes on as its reordering,
    whether or not the check called it ordered. *)
Lemma reconciled_primary (types : Types) (message : Obj) pt fields :
  wf message -> primaryTypeOf types = Some pt -> lookup pt types = Some fields ->
  reconciled types message = reorder (map name fields) message.
Proof.
  intros Hwf H Hl. unfold reconciled. rewrite H, Hl.
  destruct (same_strings (map name fields) (keys message)) eqn:Hs; simpl; [|reflexivity].
  apply same_strings_eq in Hs. rewrite Hs. symmetry. now apply reorder_own_keys.
Qed.

Lemma wf_reconciled (types : Types) (message : Obj) :
  wf message -> wf (reconciled types message).
Proof.
  intros Hwf. destruct (primaryTypeOf types) as [pt|] eqn:H.
  - destruct (checkFieldOrder_primary types message pt H) as [fields [Hl _]].
    rewrite (reconciled_primary _ _ _ _ Hwf H Hl). apply wf_reorder.
  - now rewrite reconciled_no_primary.
Qed.

(* ================================================================== *)
(** * [signTypedData], step by step *)

Section SignerFacts.
Context {E : Ethers}.
Variable this : EIP712Signer.

Lemma try_catch_bind {A B} (m : M A) (f : A -> M B) h w a w' :
  m w = (Returned a, w') -> try_catch (bind m f) h w = try_catch (f a) h w'.
Proof. unfold try_catch, bind. now intros ->. Qed.

Lemma resolveDeadline_step deadline w :
  (if negb (truthy deadline)
   then (d <- generateDeadline 3600 ;; ret (VNum d))
   else ret deadline) w
  = (Returned (fst (resolveDeadline deadline w)), snd (resolveDeadline deadline w)).
Proof. unfold resolveDeadline. now destruct (truthy deadline). Qed.

Lemma sign_steps domain types message deadline w :
  try_catch
    (signature <- lift (wallet_signTypedData (wallet this) domain types message) ;;
     recoveredAddress <- lift (verifyTypedData domain types message signature) ;;
     ret (mkSigningResult E signature deadline recoveredAddress message
            (address (wallet this))))
    (fun error => throw ("Failed to sign typed data: " ++ error)%string) w
  = (signAndRecover this domain types message deadline, w).
Proof.
  unfold try_catch, bind, lift, ret, throw, signAndRecover, wallet_signTypedData,
    verifyTypedData.
  destruct (TypedDataEncoder_hash domain types message) as [digest|e]; [|reflexivity].
  now destruct (recoverAddress digest (sign (wallet this) digest)).
Qed.

(** [signTypedData] in two steps: the field-order check, whose exception is
    rethrown before the clock is read; then the deadline, the signature and
    the recovery. *)
Lemma signTypedData_unfold domain types value deadline w :
  signTypedData this domain types value deadline w
  = match checkFieldOrder types value with
    | Thrown e => (Thrown ("Failed to sign typed data: " ++ e)%string, w)
    | Returned _ =>
        (signAndRecover this domain types
           (signedMessage types value
              (fst (resolveDeadline (default_to VNull deadline) w)))
           (fst (resolveDeadline (default_to VNull deadline) w)),
         snd (resolveDeadline (default_to VNull deadline) w))
    end.
Proof.
  unfold signTypedData. cbv zeta.
  destruct (checkFieldOrder types value) as [orderCheck|e] eqn:Hoc.
  - rewrite (try_catch_bind _ _ _ w orderCheck w) by reflexivity.
    rewrite (try_catch_bind _ _ _ w _ _ (resolveDeadline_step _ _)).
    etransitivity; [apply sign_steps|].
    unfold signedMessage.
    now rewrite (checkFieldOrder_reconciled _ _ _ Hoc).
  - reflexivity.
Qed.


(** What a returned result holds. *)
Lemma signTypedData_result domain types value dl w r w' :
  signTypedData this domain types value dl w = (Returned r, w') ->
  (deadline r, w') = resolveDeadline (default_to VNull dl) w /\
  messageWithDeadline r = signedMessage types value (deadline r) /\
  signer r = address (wallet this) /\
  exists digest,
    TypedDataEncoder_hash domain types (messageWithDeadline r) = Returned digest /\
    signature r = sign (wallet this) digest /\
    recoverAddress digest (signature r) = Returned (recoveredAddress r).
Proof.
  rewrite signTypedData_unfold. unfold signAndRecover.
  destruct (checkFieldOrder types value) as [orderCheck|e]; [|discriminate].
  destruct (resolveDeadline (default_to VNull dl) w) as [d w0]. simpl.
  destruct (TypedDataEncoder_hash domain types (signedMessage types value d))
    as [digest|e] eqn:Hh; [|discriminate].
  destruct (recoverAddress digest (sign (wallet this) digest)) as [a|e] eqn:Hr;
    [|discriminate].
  intros [= <- <-]. simpl. repeat split. exists digest. repeat split; assumption.
Qed.

(** When the type declares a deadline member, the signed tree holds the
    deadline of the result under ["deadline"]. *)
Lemma signTypedData_sets_deadline domain types value dl w r w' :
  signTypedData this domain types value dl w = (Returned r, w') ->
  declaresDeadline types = Some true ->
  messageWithDeadline r
  = set "deadline" (deadline r) (spread (reconciled types value)) /\
  prop (messageWithDeadline r) "deadline" = deadline r.
Proof.
  intros H Hd. apply signTypedData_result in H as (_ & Hm & _).
  unfold signedMessage in Hm. rewrite Hd in Hm. split; [assumption|].
  rewrite Hm. apply prop_of_lookup, lookup_set_same.
Qed.

End SignerFacts.

Lemma In_keys_fold_set {A} (l acc : ObjOf A) k :
  In k (keys (fold_left (fun a kv => set (fst kv) (snd kv) a) l acc)) ->
  In k (keys acc) \/ In k (keys l).
Proof.
  revert acc. induction l as [|[k0 v0] t IH]; intros acc H; simpl in *; [now left|].
  apply IH in H as [H|H]; [|now right; right].
  rewrite keys_set in H. destruct (hasOwnProperty acc k0); [now left|].
  apply in_app_or in H as [H|[H|[]]]; [now left | now right; left].
Qed.

Lemma In_keys_spread {A} (o : ObjOf A) k : In k (keys (spread o)) -> In k (keys o).
Proof. intros H. apply In_keys_fold_set in H as [[]|H]. exact H. Qed.

Lemma In_keys_reorder (declared : list string) (m : Obj) k :
  In k (keys (reorder declared m)) -> In k declared /\ In k (keys m).
Proof.
  intros H. destruct (lookup k (reorder declared m)) as [v|] eqn:Hl.
  - rewrite lookup_reorder in Hl.
    destruct (existsb (String.eqb k) declared) eqn:Hex; [|discriminate].
    apply existsb_eqb_In in Hex. split; [assumption|].
    destruct (lookup k m) eqn:Hm; [|discriminate].
    apply lookup_Some_In in Hm. change k with (fst (k, v0)). now apply in_map.
  - apply lookup_None in Hl. contradiction.
Qed.

Lemma declares_In (fields : list Field) k :
  existsb (fun field => String.eqb (name field) k) fields = true
  <-> In k (map name fields).
Proof.
  rewrite existsb_exists, in_map_iff. split.
  - intros [f [Hin Heq]]. apply String.eqb_eq in Heq. eauto.
  - intros [f [Heq Hin]]. exists f. split; [assumption|]. subst. apply String.eqb_refl.
Qed.

Lemma primaryKey_primary (types : Types) pt :
  primaryTypeOf types = Some pt -> primaryKey types = pt.
Proof.
  intros H. apply primaryTypeOf_found in H as [H _]. unfold primaryKey. now rewrite H.
Qed.

(** With a primary type, what goes on after the check has declared keys
    only. *)
Lemma In_keys_reconciled (types : Types) (value : Obj) pt fields k :
  primaryTypeOf types = Some pt -> lookup pt types = Some fields ->
  In k (keys (reconciled types value)) -> In k (map name fields).
Proof.
  intros H Hl. unfold reconciled. rewrite H, Hl.
  destruct (same_strings (map name fields) (keys value)) eqn:Hs; simpl.
  - apply same_strings_eq in Hs. now rewrite Hs.
  - intros Hin. now apply In_keys_reorder in Hin.
Qed.

Lemma truthy_default (dl : Val) : truthy dl = true -> default_to VNull dl = dl.
Proof. now destruct dl. Qed.

Lemma falsy_default (dl : Val) : truthy dl = false -> truthy (default_to VNull dl) = false.
Proof. now destruct dl. Qed.

(* ================================================================== *)
(** * Self-verification of the signature *)



(* ================================================================== *)
(** * Deadline injection *)

(** C2, as stated, fails: a deadline the caller supplied inside the value
    tree is replaced by the [deadline] argument. *)
Lemma signTypedData_overwrites_caller_deadline :
  hasOwnProperty Examples.actionMessageWithDeadline "deadline" = true /\
  prop Examples.actionMessageWithDeadline "deadline" = VNum 5 /\
  exists r w',
    signTypedData Examples.echoSigner Examples.actionDomain Examples.actionTypes
      Examples.actionMessageWithDeadline (VNum 1700000000) (Examples.worldAt 0)
    = (Returned r, w') /\
    prop (messageWithDeadline r) "deadline" = VNum 1700000000.
Proof.
  split; [reflexivity|]. split; [reflexivity|].
  eexists. eexists. split; vm_compute; reflexivity.
Qed.

(** C2, amended: the deadline of the call is the [deadline] argument when
    it is truthy, else the clock reading in whole seconds plus 3600.  The
    signed value tree gets its ["deadline"] entry set to that deadline if and
    only if the primary type declares a member named ["deadline"], whether or
    not the caller's value tree had one, which is then overwritten; for a
    type that declares none, once a primary type is found, the signed tree
    has no ["deadline"] entry at all.  With ordinary member names the signed
    tree is the reconciled tree with that one entry set, or the reconciled
    tree itself when the type declares no deadline. *)
Theorem signTypedData_deadline_entry {E : Ethers} (this : EIP712Signer)
    domain types value dl w r w' :
  signTypedData this domain types value dl w = (Returned r, w') ->
  let d := if truthy dl then dl else VNum (readings w (reads w) / 1000 + 3600) in
  deadline r = d /\
  (declaresDeadline types = Some true ->
     hasOwnProperty (messageWithDeadline r) "deadline" = true /\
     prop (messageWithDeadline r) "deadline" = d) /\
  (declaresDeadline types <> Some true ->
     forall pt, primaryTypeOf types = Some pt ->
       hasOwnProperty (messageWithDeadline r) "deadline" = false) /\
  (ordinaryMembers types ->
     messageWithDeadline r
     = match declaresDeadline types with
       | Some true => set "deadline" d (spread (reconciled types value))
       | _ => spread (reconciled types value)
       end).
Proof.
  intros H. cbv zeta.
  assert (Hdl : deadline r
                = (if truthy dl then dl
                   else VNum (readings w (reads w) / 1000 + 3600))).
  { apply signTypedData_result in H as (Hres & _).
    unfold resolveDeadline in Hres. destruct (truthy dl) eqn:Ht.
    - rewrite (truthy_default _ Ht), Ht in Hres. congruence.
    - rewrite (falsy_default _ Ht) in Hres. congruence. }
  split; [assumption|]. rewrite <- Hdl.
  pose proof (signTypedData_result this _ _ _ _ _ _ _ H) as (_ & Hm & _).
  unfold signedMessage in Hm. split; [|split].
  - intros Hd.
    destruct (signTypedData_sets_deadline this _ _ _ _ _ _ _ H Hd) as [Hset Hprop].
    split; [|assumption].
    now rewrite Hset, hasOwnProperty_lookup, lookup_set_same.
  - intros Hd pt Hpt.
    assert (Hm' : messageWithDeadline r = spread (reconciled types value)).
    { destruct (declaresDeadline types) as [[|]|]; congruence. }
    apply hasOwnProperty_false. intros Hin. rewrite Hm' in Hin.
    apply In_keys_spread in Hin.
    destruct (checkFieldOrder_primary types value pt Hpt) as [fields [Hl _]].
    apply (In_keys_reconciled _ _ _ _ _ Hpt Hl) in Hin.
    apply declares_In in Hin. apply Hd.
    unfold declaresDeadline. now rewrite (primaryKey_primary _ _ Hpt), Hl, Hin.
  - intros _. exact Hm.
Qed.

Lemma signTypedData_deadline_entry_witness :
  exists r w',
    signTypedData Examples.echoSigner Examples.actionDomain Examples.actionTypes
      Examples.actionMessageWithDeadline (VNum 1700000000) (Examples.worldAt 0)
    = (Returned r, w') /\
    deadline r = VNum 1700000000 /\
    prop (messageWithDeadline r) "deadline" = VNum 1700000000 /\
    messageWithDeadline r
    = [ ("user", VStr Examples.testAddress); ("action", VStr "withdraw");
        ("deadline", VNum 1700000000) ].
Proof.
  eexists. eexists. split.
  - vm_compute. reflexivity.
  - destruct (signTypedData_deadline_entry Examples.echoSigner Examples.actionDomain
                Examples.actionTypes Examples.actionMessageWithDeadline
                (VNum 1700000000) (Examples.worldAt 0) _ _
                ltac:(vm_compute; reflexivity))
      as (Hdl & Hdecl & _ & Htree).
    split; [exact Hdl|]. split; [now apply Hdecl|].
    rewrite Htree; [reflexivity|].
    intros pt fields [= <-] [= <-]. repeat constructor.
Defined.

(** C6: when the primary type declares a ["deadline"] member and no
    deadline argument is given, the signed value tree carries, under
    ["deadline"], the clock reading divided by 1000 and rounded down, plus
    3600; the result reports the same deadline. *)
Theorem signTypedData_generated_deadline {E : Ethers} (this : EIP712Signer)
    domain types value dl w r w' :
  declaresDeadline types = Some true ->
  hasOwnProperty value "deadline" = false ->
  dl = VUndefined \/ dl = VNull ->
  signTypedData this domain types value dl w = (Returned r, w') ->
  deadline r = VNum (readings w (reads w) / 1000 + 3600) /\
  prop (messageWithDeadline r) "deadline"
  = VNum (readings w (reads w) / 1000 + 3600).
Proof.
  intros Hd _ Hdl H.
  destruct (signTypedData_sets_deadline this _ _ _ _ _ _ _ H Hd) as [_ Hprop].
  apply signTypedData_result in H as (Hres & _).
  assert (Hdead : deadline r = VNum (readings w (reads w) / 1000 + 3600)).
  { destruct Hdl; subst dl; simpl in Hres; unfold resolveDeadline in Hres;
      simpl in Hres; congruence. }
  split; [assumption | congruence].
Qed.

Lemma signTypedData_generated_deadline_witness :
  exists r w',
    signTypedData Examples.echoSigner Examples.actionDomain Examples.actionTypes
      Examples.actionMessage VUndefined (Examples.worldAt 1700000000999)
    = (Returned r, w') /\
    prop (messageWithDeadline r) "deadline" = VNum 1700003600.
Proof.
  eexists. eexists. split.
  - vm_compute. reflexivity.
  - eapply (signTypedData_generated_deadline Examples.echoSigner Examples.actionDomain
              Examples.actionTypes Examples.actionMessage VUndefined
              (Examples.worldAt 1700000000999)).
    + reflexivity.
    + reflexivity.
    + left. reflexivity.
    + vm_compute. reflexivity.
Defined.

(* ================================================================== *)
(** * Reproducibility *)

(** C5, as stated, fails: an explicit deadline of 0 is replaced by a
    generated one, so two calls with the same arguments made a second apart
    sign different value trees and return different signatures. *)
Lemma signTypedData_zero_deadline_not_reproducible :
  exists r1 w1 r2 w2,
    signTypedData Examples.echoSigner Examples.actionDomain Examples.actionTypes
      Examples.actionMessage (VNum 0) (Examples.worldAt 1700000000000)
    = (Returned r1, w1) /\
    signTypedData Examples.echoSigner Examples.actionDomain Examples.actionTypes
      Examples.actionMessage (VNum 0) (Examples.worldAt 1700000001000)
    = (Returned r2, w2) /\
    messageWithDeadline r1 <> messageWithDeadline r2 /\
    signature r1 <> signature r2.
Proof.
  do 4 eexists. split; [vm_compute; reflexivity|].
  split; [vm_compute; reflexivity|].
  split; vm_compute; intros H; congruence.
Qed.

(** C5, amended: for every truthy explicit deadline (any number other than
    0) the outcome of [signTypedData], result or exception, is the same
    whatever the clock reads, and the clock is not read; and whatever the
    deadline argument, two calls differ only if the clock, in whole
    seconds, differs. *)
Theorem signTypedData_reproducible {E : Ethers} (this : EIP712Signer)
    domain types value dl w1 w2 :
  (truthy dl = true ->
   fst (signTypedData this domain types value dl w1)
   = fst (signTypedData this domain types value dl w2) /\
   snd (signTypedData this domain types value dl w1) = w1) /\
  (readings w1 (reads w1) / 1000 = readings w2 (reads w2) / 1000 ->
   fst (signTypedData this domain types value dl w1)
   = fst (signTypedData this domain types value dl w2)).
Proof.
  rewrite !signTypedData_unfold. unfold resolveDeadline.
  destruct (checkFieldOrder types value) as [orderCheck|e]; [|now split].
  split.
  - intros Ht. rewrite (truthy_default _ Ht), Ht. now split.
  - intros Hclock. destruct (truthy (default_to VNull dl)); simpl; [reflexivity|].
    now rewrite Hclock.
Qed.

Lemma signTypedData_reproducible_witness :
  fst (signTypedData Examples.echoSigner Examples.actionDomain Examples.actionTypes
         Examples.actionMessage (VNum 1700000000) (Examples.worldAt 1700000000000))
  = fst (signTypedData Examples.echoSigner Examples.actionDomain Examples.actionTypes
           Examples.actionMessage (VNum 1700000000) (Examples.worldAt 1700000001000)).
Proof.
  destruct (signTypedData_reproducible Examples.echoSigner Examples.actionDomain
              Examples.actionTypes Examples.actionMessage (VNum 1700000000)
              (Examples.worldAt 1700000000000) (Examples.worldAt 1700000001000))
    as [Hfixed _].
  apply Hfixed. reflexivity.
Defined.

(* ================================================================== *)
(** * Field-order reconciliation *)





(** C7, at the failing input: the vote of the examples, in declared order,
    with one undeclared member named ["hasOwnProperty"].  The field-order
    check throws at its first call of [message.hasOwnProperty], and
    [signTypedData] rethrows, whatever the library, the domain, the deadline
    and the clock (which is not read): the undeclared member is not dropped
    silently.  The vote without that member is signed. *)
Theorem undeclared_hasOwnProperty_member_throws :
  lookup "Vote" Examples.voteTypes
  = Some [ mkField "proposal" "uint256"; mkField "support" "bool";
           mkField "voter" "address" ] /\
  declaredOnly ["proposal"; "support"; "voter"] Examples.voteMessageShadowing
  = Examples.voteMessage /\
  checkFieldOrder Examples.voteTypes Examples.voteMessageShadowing
  = Thrown "message.hasOwnProperty is not a function" /\
  (forall (E : Ethers) (this : EIP712Signer) domain dl w,
     signTypedData this domain Examples.voteTypes Examples.voteMessageShadowing dl w
     = (Thrown "Failed to sign typed data: message.hasOwnProperty is not a function",
        w)) /\
  exists r w',
    signTypedData Examples.echoSigner Examples.voteDomain Examples.voteTypes
      Examples.voteMessage (VNum 1700000000) (Examples.worldAt 0)
    = (Returned r, w') /\
    messageWithDeadline r = Examples.voteMessage.
Proof.
  split; [reflexivity|]. split; [reflexivity|]. split; [reflexivity|]. split.
  - intros E this domain dl w. now rewrite signTypedData_unfold.
  - eexists. eexists. split; vm_compute; reflexivity.
Qed.



(* ================================================================== *)
(** * The primary type *)




(** With the auxiliary type listed first, the mail is reconciled against
    [Person] and loses all its members. *)
Example mail_reconciled_against_auxiliary_type :
  reconciled Examples.mailTypes Examples.mailMessage = [].
Proof. reflexivity. Qed.

(** With the root type first, the top-level keys are put in declared order
    and the nested [from] keeps its own key order. *)
Example mail_nested_values_not_reordered :
  reconciled Examples.mailTypesRootFirst Examples.mailMessageShuffled
  = [ ("from", VObj [ ("wallet", VStr Examples.testAddress); ("name", VStr "Cow") ]);
      ("to", VObj [ ("name", VStr "Bob"); ("wallet", VStr Examples.testAddress) ]);
      ("contents", VStr "Hello, Bob!") ].
Proof. reflexivity. Qed.

(** Scenario C of the specification on the stand-in library. *)
Example vote_signs_alike_in_either_order :
  signTypedData Examples.echoSigner Examples.voteDomain Examples.voteTypes
    Examples.voteMessageShuffled (VNum 1700000000) (Examples.worldAt 0)
  = signTypedData Examples.echoSigner Examples.voteDomain Examples.voteTypes
      Examples.voteMessage (VNum 1700000000) (Examples.worldAt 0).
Proof. vm_compute. reflexivity. Qed.

(* ================================================================== *)
(** * [signPermit] *)

Section PermitFacts.
Context {E : Ethers}.
Variable this : EIP712Signer.

Lemma signPermit_unfold permitData w contract owner' spender' :
  getAddress (prop permitData "verifyingContract") = Returned contract ->
  permitOwner this permitData = Returned owner' ->
  getAddress (prop permitData "spender") = Returned spender' ->
  signPermit this permitData w
  = signTypedData this
      [ ("name", prop permitData "tokenName");
        ("version", default_to (VStr "1") (prop permitData "tokenVersion"));
        ("chainId", prop permitData "chainId");
        ("verifyingContract", VStr contract) ]
      PermitTypes
      [ ("owner", VStr owner');
        ("spender", VStr spender');
        ("value", prop permitData "value");
        ("nonce", prop permitData "nonce");
        ("deadline",
         fst (resolveDeadline (default_to VNull (prop permitData "deadline")) w)) ]
      (fst (resolveDeadline (default_to VNull (prop permitData "deadline")) w))
      (snd (resolveDeadline (default_to VNull (prop permitData "deadline")) w)).
Proof.
  unfold permitOwner. intros Hc Ho Hs.
  unfold signPermit. cbv zeta. unfold bind at 1. unfold lift at 1. rewrite Hc.
  unfold bind at 1.
  assert (Hown :
    (if truthy (prop permitData "owner")
     then lift (getAddress (prop permitData "owner"))
     else ret (address (wallet this))) w = (Returned owner', w)).
  { destruct (truthy (prop permitData "owner")); unfold lift, ret; congruence. }
  rewrite Hown. unfold bind at 1. unfold lift at 1. rewrite Hs.
  unfold bind at 1, resolveDeadline.
  destruct (truthy (default_to VNull (prop permitData "deadline"))); reflexivity.
Qed.

Lemma signPermit_throws_early permitData w r w' :
  signPermit this permitData w = (Returned r, w') ->
  exists contract owner' spender',
    getAddress (prop permitData "verifyingContract") = Returned contract /\
    permitOwner this permitData = Returned owner' /\
    getAddress (prop permitData "spender") = Returned spender'.
Proof.
  unfold signPermit, permitOwner. cbv zeta. unfold bind at 1. unfold lift at 1.
  destruct (getAddress (prop permitData "verifyingContract")) as [contract|e];
    [|discriminate].
  unfold bind at 1.
  destruct (truthy (prop permitData "owner")).
  - unfold lift at 1.
    destruct (getAddress (prop permitData "owner")) as [owner'|e]; [|discriminate].
    unfold bind at 1. unfold lift at 1.
    destruct (getAddress (prop permitData "spender")) as [spender'|e]; [|discriminate].
    intros _. now exists contract, owner', spender'.
  - unfold ret at 1. unfold bind at 1. unfold lift at 1.
    destruct (getAddress (prop permitData "spender")) as [spender'|e]; [|discriminate].
    intros _. now exists contract, (address (wallet this)), spender'.
Qed.

(** The permit message is already in declared order and already holds the
    deadline of the call: it is signed as it is. *)
Lemma signedMessage_permit (owner' spender' : string) (value nonce d : Val) :
  signedMessage PermitTypes
    [ ("owner", VStr owner'); ("spender", VStr spender'); ("value", value);
      ("nonce", nonce); ("deadline", d) ] d
  = [ ("owner", VStr owner'); ("spender", VStr spender'); ("value", value);
      ("nonce", nonce); ("deadline", d) ].
Proof. reflexivity. Qed.

End PermitFacts.

(** C8: [signPermit] builds the domain [{name, version, chainId,
    verifyingContract}] with the version defaulting to ['1'], the one-type
    graph [Permit(owner, spender, value, nonce, deadline)] of types
    [(address, address, uint256, uint256, uint256)], and the message of
    those five members; the owner is the address of the held key when
    [permitData] has none; and it returns what [signTypedData] returns on
    them with the message's deadline as the explicit deadline.  That
    message is signed as built. *)
Theorem signPermit_builds_permit {E : Ethers} (this : EIP712Signer)
    permitData w contract owner' spender' :
  getAddress (prop permitData "verifyingContract") = Returned contract ->
  permitOwner this permitData = Returned owner' ->
  getAddress (prop permitData "spender") = Returned spender' ->
  let generated := resolveDeadline (default_to VNull (prop permitData "deadline")) w in
  let message : Obj :=
    [ ("owner", VStr owner');
      ("spender", VStr spender');
      ("value", prop permitData "value");
      ("nonce", prop permitData "nonce");
      ("deadline", fst generated) ] in
  signPermit this permitData w
  = signTypedData this
      [ ("name", prop permitData "tokenName");
        ("version", default_to (VStr "1") (prop permitData "tokenVersion"));
        ("chainId", prop permitData "chainId");
        ("verifyingContract", VStr contract) ]
      [ ("Permit",
         [ mkField "owner" "address";
           mkField "spender" "address";
           mkField "value" "uint256";
           mkField "nonce" "uint256";
           mkField "deadline" "uint256" ]) ]
      message (prop message "deadline") (snd generated) /\
  (hasOwnProperty permitData "owner" = false -> owner' = address (wallet this)) /\
  (hasOwnProperty permitData "tokenVersion" = false ->
   default_to (VStr "1") (prop permitData "tokenVersion") = VStr "1") /\
  (forall r w',
     signPermit this permitData w = (Returned r, w') ->
     messageWithDeadline r
     = [ ("owner", VStr owner');
         ("spender", VStr spender');
         ("value", prop permitData "value");
         ("nonce", prop permitData "nonce");
         ("deadline", deadline r) ]).
Proof.
  intros Hc Ho Hs generated message.
  pose proof (signPermit_unfold this permitData w contract owner' spender' Hc Ho Hs)
    as Hunfold.
  split; [exact Hunfold|]. split; [|split].
  - intros Hnone. unfold permitOwner in Ho.
    apply hasOwnProperty_false, lookup_None in Hnone.
    unfold prop in Ho. rewrite Hnone in Ho. simpl in Ho. congruence.
  - intros Hnone. apply hasOwnProperty_false, lookup_None in Hnone.
    unfold prop. now rewrite Hnone.
  - intros r w' H. rewrite Hunfold in H.
    apply signTypedData_result in H as (_ & Hm & _).
    rewrite Hm. unfold signedMessage. reflexivity.
Qed.

Lemma signPermit_builds_permit_witness :
  exists r w',
    signPermit Examples.echoSigner Examples.permitData (Examples.worldAt 1700000000000)
    = (Returned r, w') /\
    prop (messageWithDeadline r) "owner" = VStr Examples.testAddress /\
    keys (messageWithDeadline r)
    = ["owner"; "spender"; "value"; "nonce"; "deadline"]%string.
Proof.
  eexists. eexists. split.
  - vm_compute. reflexivity.
  - destruct (signPermit_builds_permit Examples.echoSigner Examples.permitData
                (Examples.worldAt 1700000000000)
                "0xA0b86991c6218b36c1d19D4a2e9Eb0cE3606eB48"%string
                Examples.testAddress
                "0x7a250d5630B4cF539739dF2C5dAcb4c659F2488D"%string
                eq_refl eq_refl eq_refl)
      as (_ & _ & _ & Hm).
    rewrite (Hm _ _ ltac:(vm_compute; reflexivity)). split; reflexivity.
Defined.

(** C9: a falsy explicit deadline (0, [null], ...) is treated as absent,
    by [signTypedData] and by [signPermit] alike: the call goes as it would
    without one and the deadline reported and signed is the one generated
    from the clock; with a clock at or after the epoch that deadline is
    never 0. *)
Theorem falsy_deadline_is_regenerated {E : Ethers} (this : EIP712Signer)
    domain types value permitData dl w :
  truthy dl = false ->
  prop permitData "deadline" = dl ->
  let generated := readings w (reads w) / 1000 + 3600 in
  signTypedData this domain types value dl w
  = signTypedData this domain types value VUndefined w /\
  (forall r w',
     signTypedData this domain types value dl w = (Returned r, w') ->
     deadline r = VNum generated /\
     (declaresDeadline types = Some true ->
      prop (messageWithDeadline r) "deadline" = VNum generated)) /\
  (0 <= readings w (reads w) ->
   (forall r w',
      signTypedData this domain types value dl w = (Returned r, w') ->
      deadline r <> VNum 0) /\
   (forall r w',
      signPermit this permitData w = (Returned r, w') ->
      deadline r = VNum generated /\
      prop (messageWithDeadline r) "deadline" = VNum generated /\
      prop (messageWithDeadline r) "deadline" <> VNum 0)).
Proof.
  intros Hf Hpd generated.
  assert (Hres : resolveDeadline (default_to VNull dl) w
                 = (VNum generated, mkWorld (readings w) (S (reads w)))).
  { unfold resolveDeadline. now rewrite (falsy_default _ Hf). }
  assert (Hdead : forall r w',
            signTypedData this domain types value dl w = (Returned r, w') ->
            deadline r = VNum generated).
  { intros r w' H. apply signTypedData_result in H as (Hd & _).
    rewrite Hres in Hd. congruence. }
  split; [|split].
  - rewrite !signTypedData_unfold, Hres. reflexivity.
  - intros r w' H. split; [now apply (Hdead r w')|].
    intros Hdecl.
    destruct (signTypedData_sets_deadline this _ _ _ _ _ _ _ H Hdecl) as [_ Hp].
    rewrite Hp. now apply (Hdead r w').
  - intros Hnow.
    assert (Hgen : 3600 <= generated).
    { unfold generated. pose proof (Z.div_pos (readings w (reads w)) 1000 Hnow). lia. }
    split.
    + intros r w' H. rewrite (Hdead r w' H). intros [= H0]. lia.
    + intros r w' H.
      destruct (signPermit_throws_early this _ _ _ _ H)
        as (contract & owner' & spender' & Hc & Ho & Hs).
      rewrite (signPermit_unfold this _ _ _ _ _ Hc Ho Hs), Hpd, Hres in H.
      simpl fst in H. simpl snd in H.
      apply signTypedData_result in H as (Hd & Hm & _).
      assert (Ht : truthy (VNum generated) = true).
      { simpl. apply negb_true_iff, Z.eqb_neq. lia. }
      simpl default_to in Hd. unfold resolveDeadline in Hd. rewrite Ht in Hd.
      assert (Hdl : deadline r = VNum generated) by congruence.
      rewrite Hdl in Hm. rewrite signedMessage_permit in Hm.
      split; [assumption|]. rewrite Hm. split; [reflexivity|].
      change (VNum generated <> VNum 0). intros [= H0]. lia.
Qed.

Lemma falsy_deadline_is_regenerated_witness :
  signTypedData Examples.echoSigner Examples.actionDomain Examples.actionTypes
    Examples.actionMessage (VNum 0) (Examples.worldAt 1700000000000)
  = signTypedData Examples.echoSigner Examples.actionDomain Examples.actionTypes
      Examples.actionMessage VUndefined (Examples.worldAt 1700000000000).
Proof.
  apply (falsy_deadline_is_regenerated Examples.echoSigner Examples.actionDomain
           Examples.actionTypes Examples.actionMessage
           (set "deadline" (VNum 0) Examples.permitData) (VNum 0)
           (Examples.worldAt 1700000000000)).
  - reflexivity.
  - reflexivity.
Defined.

(* ================================================================== *)
(** * Hashing a string member against packing a [bytes32] member *)

(** The primitives agree with the values the repository itself records:
    the domain type hash of EIP-712 and the [bytes32] constants of
    [recover-test.js], which are the hashes of ["sell"] and ["erc20"]. *)
Example keccak256_known_values :
  Data.keccak256 [] = "0xc5d2460186f7233c927e7db2dcc703c0e500b653ca82273b7bfad8045d85a470"%string /\
  Scripts.domainTypeHash = "0x8b73c3c69bb8fe3d512ecc4cf759cc79239f7b179b0ffacaa9a75d522b39400f"%string /\
  VStr (Data.keccak256 (Data.toUtf8Bytes "sell")) = prop Scripts.RecoverAddressTest.message "kind" /\
  VStr (Data.keccak256 (Data.toUtf8Bytes "erc20"))
  = prop Scripts.RecoverAddressTest.message "sellTokenBalance".
Proof. repeat split; vm_compute; reflexivity. Qed.

(** The verifying contracts of tests 2 and 3 of [test-examples.js] are
    written with a checksum that [ethers.getAddress] rejects. *)
Example getAddress_rejects_test_contracts :
  Data.getAddress "0xA0b86a33E6441e3a8b06dd2BC5BF6ef5C0aA2CB0" = None /\
  Data.getAddress "0x742d35Cc6634C0532925a3b8D3Ac6532495dCe66" = None.
Proof. split; vm_compute; reflexivity. Qed.

(** The addresses of the scripts carry valid checksums. *)
Example getAddress_accepts_script_addresses :
  Data.getAddress "0x9008D19f58AAbD9eD0D60971565AA8510560ab41"
  = Some "0x9008D19f58AAbD9eD0D60971565AA8510560ab41"%string /\
  Data.getAddress "0xA0b86991c6218b36c1d19D4a2e9Eb0cE3606eB48"
  = Some "0xA0b86991c6218b36c1d19D4a2e9Eb0cE3606eB48"%string /\
  Data.getAddress "0xdac17f958d2ee523a2206206994597c13d831ec7"
  = Some "0xdAC17F958D2ee523a2206206994597C13D831ec7"%string.
Proof. repeat split; vm_compute; reflexivity. Qed.

(* ================================================================== *)
(** * Further properties of the signer *)

Lemma declaresDeadline_primary (types : Types) pt fields :
  primaryTypeOf types = Some pt -> lookup pt types = Some fields ->
  declaresDeadline types
  = Some (existsb (fun field => String.eqb (name field) "deadline") fields).
Proof.
  intros Hpt Hl. unfold declaresDeadline.
  now rewrite (primaryKey_primary _ _ Hpt), Hl.
Qed.

(** With a primary type, the tree handed to the library is the reordering
    of the value tree, with the deadline set on it when declared. *)
Lemma signedMessage_primary (types : Types) (value : Obj) (d : Val) pt fields :
  wf value -> primaryTypeOf types = Some pt -> lookup pt types = Some fields ->
  signedMessage types value d
  = if existsb (fun field => String.eqb (name field) "deadline") fields
    then set "deadline" d (reorder (map name fields) value)
    else reorder (map name fields) value.
Proof.
  intros Hwf Hpt Hl. unfold signedMessage.
  rewrite (declaresDeadline_primary _ _ _ Hpt Hl),
    (reconciled_primary _ _ _ _ Hwf Hpt Hl), (spread_wf _ (wf_reorder _ _)).
  now destruct (existsb _ fields).
Qed.

Lemma lookup_signedMessage (types : Types) (value : Obj) (d : Val) pt fields k :
  wf value -> primaryTypeOf types = Some pt -> lookup pt types = Some fields ->
  lookup k (signedMessage types value d)
  = if String.eqb k "deadline"
       && existsb (fun field => String.eqb (name field) "deadline") fields
    then Some d
    else if existsb (String.eqb k) (map name fields) then lookup k value else None.
Proof.
  intros Hwf Hpt Hl. rewrite (signedMessage_primary _ _ _ _ _ Hwf Hpt Hl).
  destruct (existsb (fun field => String.eqb (name field) "deadline") fields) eqn:Hd.
  - destruct (String.eqb_spec k "deadline") as [->|Hne]; simpl.
    + apply lookup_set_same.
    + rewrite lookup_set_other by congruence. apply lookup_reorder.
  - rewrite andb_false_r. apply lookup_reorder.
Qed.

Lemma wf_signedMessage (types : Types) (value : Obj) (d : Val) :
  wf (signedMessage types value d).
Proof.
  unfold signedMessage.
  destruct (declaresDeadline types) as [[|]|];
    [apply wf_set | |]; apply wf_spread.
Qed.



(** X2: with a primary type that declares a deadline and whose member
    names are ordinary, a deadline injected into a value tree that
    had none becomes the last key of the signed tree, wherever the type
    declares it, so the signed tree need not be in declared order; a
    deadline the caller supplied keeps its declared place. *)
Theorem signTypedData_deadline_key_position {E : Ethers} (this : EIP712Signer)
    domain types value dl w r w' pt fields :
  wf value ->
  primaryTypeOf types = Some pt ->
  lookup pt types = Some fields ->
  Forall (fun k => ordinaryName k = true) (map name fields) ->
  declaresDeadline types = Some true ->
  signTypedData this domain types value dl w = (Returned r, w') ->
  keys (messageWithDeadline r)
  = if hasOwnProperty value "deadline"
    then dedup (filter (hasOwnProperty value) (map name fields))
    else dedup (filter (hasOwnProperty value) (map name fields)) ++ ["deadline"%string].
Proof.
  intros Hwf Hpt Hl _ Hd H. apply signTypedData_result in H as (_ & Hm & _).
  rewrite Hm, (signedMessage_primary _ _ _ _ _ Hwf Hpt Hl).
  rewrite (declaresDeadline_primary _ _ _ Hpt Hl) in Hd. injection Hd as Hd.
  rewrite Hd, keys_set, keys_reorder.
  assert (Hhas : hasOwnProperty (reorder (map name fields) value) "deadline"
                 = hasOwnProperty value "deadline").
  { rewrite !hasOwnProperty_lookup, lookup_reorder.
    destruct (existsb (String.eqb "deadline") (map name fields)) eqn:Hex;
      [reflexivity|].
    exfalso. apply not_true_iff_false in Hex. apply Hex.
    apply existsb_eqb_In, declares_In. assumption. }
  now rewrite Hhas.
Qed.

Lemma signTypedData_deadline_key_position_witness :
  exists r w',
    signTypedData Examples.echoSigner Examples.actionDomain
      MoreExamples.deadlineFirstTypes Examples.actionMessage VUndefined
      (Examples.worldAt 0)
    = (Returned r, w') /\
    keys (messageWithDeadline r) = ["user"; "action"; "deadline"]%string.
Proof.
  eexists. eexists. split; [vm_compute; reflexivity|].
  assert (Hwf : wf Examples.actionMessage).
  { unfold wf. simpl. repeat constructor; simpl; intuition discriminate. }
  rewrite (signTypedData_deadline_key_position Examples.echoSigner
             Examples.actionDomain MoreExamples.deadlineFirstTypes
             Examples.actionMessage VUndefined (Examples.worldAt 0) _ _
             "Action"%string _ Hwf eq_refl eq_refl
             ltac:(repeat constructor) eq_refl
             ltac:(vm_compute; reflexivity)).
  reflexivity.
Defined.

(** X3: on a value tree without an own member named ["__proto__"],
    [signTypedData] throws exactly when the field-order check throws,
    and then the clock is not read, or when the library throws while
    hashing the tree to sign or while recovering the address, and then the
    clock has been read all the same when no truthy deadline was given; the
    message is the one caught under the prefix
    ["Failed to sign typed data: "].  The check throws exactly when there is
    a primary type with at least one member and the message has an own
    member named ["hasOwnProperty"]. *)
Theorem signTypedData_throws_iff {E : Ethers} (this : EIP712Signer)
    domain types value dl w msg w' :
  hasOwnProperty value "__proto__" = false ->
  (signTypedData this domain types value dl w = (Thrown msg, w') <->
   exists e,
     msg = ("Failed to sign typed data: " ++ e)%string /\
     ((checkFieldOrder types value = Thrown e /\ w' = w) \/
      ((exists orderCheck, checkFieldOrder types value = Returned orderCheck) /\
       w' = snd (resolveDeadline (default_to VNull dl) w) /\
       let message :=
         signedMessage types value
           (fst (resolveDeadline (default_to VNull dl) w)) in
       (TypedDataEncoder_hash domain types message = Thrown e \/
        exists digest,
          TypedDataEncoder_hash domain types message = Returned digest /\
          recoverAddress digest (sign (wallet this) digest) = Thrown e)))) /\
  (forall e,
     checkFieldOrder types value = Thrown e <->
     e = "message.hasOwnProperty is not a function"%string /\
     hasOwnProperty value "hasOwnProperty" = true /\
     exists pt fields,
       primaryTypeOf types = Some pt /\ lookup pt types = Some fields /\
       fields <> []).
Proof.
  intros _. split.
  - rewrite signTypedData_unfold. unfold signAndRecover. cbv zeta.
    destruct (checkFieldOrder types value) as [orderCheck|e0] eqn:Hoc.
    + destruct (resolveDeadline (default_to VNull dl) w) as [d w0].
      simpl fst. simpl snd.
      destruct (TypedDataEncoder_hash domain types (signedMessage types value d))
        as [digest|e0] eqn:Hh.
      * destruct (recoverAddress digest (sign (wallet this) digest)) as [a|e0] eqn:Hr.
        -- split; [discriminate|].
           intros (e & _ & [[Hc _]|(_ & _ & [Hc|(digest' & Hd & Hc)])]);
             try discriminate.
           injection Hd as <-. congruence.
        -- split.
           ++ intros [= <- <-]. exists e0. split; [reflexivity|]. right.
              split; [now exists orderCheck|]. split; [reflexivity|].
              right. now exists digest.
           ++ intros (e & -> & [[Hc _]|(_ & -> & [Hc|(digest' & Hd & Hc)])]);
                try discriminate.
              injection Hd as <-. congruence.
      * split.
        -- intros [= <- <-]. exists e0. split; [reflexivity|]. right.
           split; [now exists orderCheck|]. split; [reflexivity|]. now left.
        -- intros (e & -> & [[Hc _]|(_ & -> & [Hc|(digest' & Hd & _)])]);
             try discriminate.
           congruence.
    + split.
      * intros [= <- <-]. exists e0. split; [reflexivity|]. now left.
      * intros (e & -> & [[Hc ->]|([oc Hc] & _)]); [congruence | discriminate].
  - intros e. split; [apply checkFieldOrder_thrown|].
    intros (-> & Hs & pt & fields & Hpt & Hl & Hne).
    destruct (checkFieldOrder_primary types value pt Hpt) as [fields' [Hl' ->]].
    assert (fields' = fields) by congruence. subst fields'.
    destruct fields as [|f t]; [contradiction|]. simpl. now rewrite Hs.
Qed.

Lemma signTypedData_throws_iff_witness :
  signTypedData MoreExamples.strictSigner Examples.voteDomain Examples.voteTypes
    [ ("proposal", VNum 1); ("support", VBool true) ] VUndefined (Examples.worldAt 0)
  = (Thrown "Failed to sign typed data: missing value for voter",
     mkWorld (fun _ => 0) 1).
Proof.
  destruct (signTypedData_throws_iff MoreExamples.strictSigner Examples.voteDomain
              Examples.voteTypes
              [ ("proposal"%string, VNum 1); ("support"%string, VBool true) ]
              VUndefined (Examples.worldAt 0)
              "Failed to sign typed data: missing value for voter"%string
              (mkWorld (fun _ => 0) 1) eq_refl)
    as [[_ Hthrows] _].
  apply Hthrows.
  exists "missing value for voter"%string. split; [reflexivity|]. right.
  split; [eexists; reflexivity|]. split; [reflexivity|]. left. reflexivity.
Defined.

(** X4: when [types] has no key other than ['EIP712Domain'] (an empty
    graph included), nothing is reconciled and nothing is injected: a
    well-formed value tree is handed to the library exactly as the caller
    built it, undeclared members and key order included. *)
Theorem signTypedData_without_primary_type {E : Ethers} (this : EIP712Signer)
    domain types value dl w r w' :
  wf value ->
  findPrimary types = None ->
  signTypedData this domain types value dl w = (Returned r, w') ->
  messageWithDeadline r = value.
Proof.
  intros Hwf Hnone H. apply signTypedData_result in H as (_ & Hm & _).
  rewrite Hm. unfold signedMessage.
  assert (Hp : primaryTypeOf types = None) by (unfold primaryTypeOf; now rewrite Hnone).
  rewrite (reconciled_no_primary _ _ Hp), (spread_wf _ Hwf).
  assert (Hu : lookup "undefined"%string types = None).
  { apply lookup_None. intros Hin. unfold findPrimary in Hnone.
    apply (find_none _ _ Hnone) in Hin. discriminate. }
  unfold declaresDeadline, primaryKey. now rewrite Hnone, Hu.
Qed.

Lemma signTypedData_without_primary_type_witness :
  exists r w',
    signTypedData Examples.echoSigner Examples.actionDomain
      MoreExamples.domainOnlyTypes Examples.voteMessageExtra (VNum 1700000000)
      (Examples.worldAt 0)
    = (Returned r, w') /\
    messageWithDeadline r = Examples.voteMessageExtra.
Proof.
  eexists. eexists. split; [vm_compute; reflexivity|].
  eapply (signTypedData_without_primary_type Examples.echoSigner
            Examples.actionDomain MoreExamples.domainOnlyTypes
            Examples.voteMessageExtra (VNum 1700000000) (Examples.worldAt 0)).
  - unfold wf. simpl. repeat constructor; simpl; intuition discriminate.
  - reflexivity.
  - vm_compute. reflexivity.
Defined.

(** X5: when the primary type declares no deadline and no truthy deadline
    is given, the clock is read and the result reports the generated
    deadline although the signed tree has no ["deadline"] entry: the
    reported deadline is not covered by the signature. *)
Theorem signTypedData_reports_unsigned_deadline {E : Ethers} (this : EIP712Signer)
    domain types value dl w r w' pt :
  primaryTypeOf types = Some pt ->
  declaresDeadline types = Some false ->
  truthy dl = false ->
  signTypedData this domain types value dl w = (Returned r, w') ->
  deadline r = VNum (readings w (reads w) / 1000 + 3600) /\
  w' = mkWorld (readings w) (S (reads w)) /\
  hasOwnProperty (messageWithDeadline r) "deadline" = false.
Proof.
  intros Hpt Hd Hf H.
  pose proof (signTypedData_result this _ _ _ _ _ _ _ H) as (Hres & Hm & _).
  unfold resolveDeadline in Hres. rewrite (falsy_default _ Hf) in Hres.
  injection Hres as Hdl Hw. split; [assumption|]. split; [assumption|].
  apply hasOwnProperty_false. intros Hin. rewrite Hm in Hin.
  unfold signedMessage in Hin. rewrite Hd in Hin. apply In_keys_spread in Hin.
  destruct (checkFieldOrder_primary types value pt Hpt) as [fields [Hl _]].
  apply (In_keys_reconciled _ _ _ _ _ Hpt Hl), declares_In in Hin.
  rewrite (declaresDeadline_primary _ _ _ Hpt Hl) in Hd. congruence.
Qed.

Lemma signTypedData_reports_unsigned_deadline_witness :
  exists r w',
    signTypedData Examples.echoSigner Examples.voteDomain Examples.voteTypes
      Examples.voteMessage VUndefined (Examples.worldAt 1700000000000)
    = (Returned r, w') /\
    deadline r = VNum 1700003600 /\
    hasOwnProperty (messageWithDeadline r) "deadline" = false.
Proof.
  eexists. eexists. split; [vm_compute; reflexivity|].
  destruct (signTypedData_reports_unsigned_deadline Examples.echoSigner
              Examples.voteDomain Examples.voteTypes Examples.voteMessage VUndefined
              (Examples.worldAt 1700000000000) _ _ "Vote"%string
              eq_refl eq_refl eq_refl ltac:(vm_compute; reflexivity))
    as (Hd & _ & Hh).
  split; [exact Hd | exact Hh].
Defined.

(** X6: signing the tree a result carries, again, with the result's
    deadline, signs the same properties: every key holds the same value in
    the second signed tree as in the first. *)
Theorem signTypedData_resign_same_properties {E : Ethers} (this : EIP712Signer)
    domain types value dl w r w' pt k :
  wf value ->
  primaryTypeOf types = Some pt ->
  signTypedData this domain types value dl w = (Returned r, w') ->
  lookup k (signedMessage types (messageWithDeadline r) (deadline r))
  = lookup k (messageWithDeadline r).
Proof.
  intros Hwf Hpt H. apply signTypedData_result in H as (_ & Hm & _).
  destruct (checkFieldOrder_primary types value pt Hpt) as [fields [Hl _]].
  rewrite Hm. generalize (deadline r). intros d.
  rewrite (lookup_signedMessage types (signedMessage types value d) d pt fields k
             (wf_signedMessage _ _ _) Hpt Hl).
  destruct (String.eqb k "deadline"
            && existsb (fun field => String.eqb (name field) "deadline") fields)
    eqn:Ha.
  - now rewrite (lookup_signedMessage types value d pt fields k Hwf Hpt Hl), Ha.
  - destruct (existsb (String.eqb k) (map name fields)) eqn:Hb; [reflexivity|].
    now rewrite (lookup_signedMessage types value d pt fields k Hwf Hpt Hl), Ha, Hb.
Qed.

Lemma signTypedData_resign_same_properties_witness :
  lookup "deadline"%string
    (signedMessage MoreExamples.deadlineFirstTypes
       [ ("user", VStr Examples.testAddress); ("action", VStr "withdraw");
         ("deadline", VNum 3600) ] (VNum 3600))
  = Some (VNum 3600).
Proof.
  assert (Hwf : wf Examples.actionMessage).
  { unfold wf. simpl. repeat constructor; simpl; intuition discriminate. }
  exact (signTypedData_resign_same_properties Examples.echoSigner
           Examples.actionDomain MoreExamples.deadlineFirstTypes
           Examples.actionMessage VUndefined (Examples.worldAt 0)
           _ _ "Action"%string "deadline"%string Hwf eq_refl eq_refl).
Defined.

(** X7: for a clock reading and a duration that are safe integers, and
    whose deadline is one too, the deadline is the clock's time in whole
    seconds, rounded down, plus the duration: in milliseconds it is never
    later than the reading plus the duration, and less than a second
    earlier; the clock is read once. *)
Theorem generateDeadline_rounds_down (durationSeconds : Z) (w : World) :
  safeInteger (readings w (reads w)) ->
  safeInteger durationSeconds ->
  safeInteger (readings w (reads w) / 1000 + durationSeconds) ->
  exists d,
    generateDeadline durationSeconds w
    = (Returned d, mkWorld (readings w) (S (reads w))) /\
    d = readings w (reads w) / 1000 + durationSeconds /\
    1000 * d <= readings w (reads w) + 1000 * durationSeconds < 1000 * d + 1000.
Proof.
  intros _ _ _.
  exists (readings w (reads w) / 1000 + durationSeconds). split; [reflexivity|].
  split; [reflexivity|].
  pose proof (Z.div_mod (readings w (reads w)) 1000 ltac:(lia)) as Hdm.
  pose proof (Z.mod_pos_bound (readings w (reads w)) 1000 ltac:(lia)) as Hb.
  lia.
Qed.

Lemma generateDeadline_rounds_down_witness :
  exists d,
    generateDeadline 60 (Examples.worldAt 1700000000999)
    = (Returned d, mkWorld (fun _ => 1700000000999) 1) /\
    d = 1700000060.
Proof.
  destruct (generateDeadline_rounds_down 60 (Examples.worldAt 1700000000999))
    as (d & Hg & Hd & _).
  - unfold safeInteger. simpl. lia.
  - unfold safeInteger. lia.
  - unfold safeInteger. simpl. lia.
  - exists d. split; [exact Hg | exact Hd].
Defined.

(* ================================================================== *)
(** * Further properties of [signPermit] *)

Section MorePermitFacts.
Context {E : Ethers}.
Variable this : EIP712Signer.

(** What a result of [signPermit] holds. *)
Lemma signPermit_result permitData w r w' :
  signPermit this permitData w = (Returned r, w') ->
  exists contract owner' spender',
    getAddress (prop permitData "verifyingContract") = Returned contract /\
    permitOwner this permitData = Returned owner' /\
    getAddress (prop permitData "spender") = Returned spender' /\
    (deadline r, w')
    = resolveDeadline
        (default_to VNull
           (fst (resolveDeadline (default_to VNull (prop permitData "deadline")) w)))
        (snd (resolveDeadline (default_to VNull (prop permitData "deadline")) w)) /\
    messageWithDeadline r
    = [ ("owner", VStr owner');
        ("spender", VStr spender');
        ("value", prop permitData "value");
        ("nonce", prop permitData "nonce");
        ("deadline", deadline r) ] /\
    signer r = address (wallet this).
Proof.
  intros H.
  destruct (signPermit_throws_early this _ _ _ _ H)
    as (contract & owner' & spender' & Hc & Ho & Hs).
  exists contract, owner', spender'. repeat (split; [assumption|]).
  rewrite (signPermit_unfold this _ _ _ _ _ Hc Ho Hs) in H.
  apply signTypedData_result in H as (Hd & Hm & Hsg & _).
  split; [exact Hd|]. split; [|exact Hsg]. rewrite Hm. reflexivity.
Qed.

End MorePermitFacts.

(** X8: an address the library rejects makes [signPermit] throw the
    library's own message, without the prefix that the errors of
    [signTypedData] carry, and before the clock is read; the verifying
    contract is looked at first, then the owner, then the spender. *)
Theorem signPermit_rejected_address {E : Ethers} (this : EIP712Signer)
    permitData w e :
  (getAddress (prop permitData "verifyingContract") = Thrown e ->
   signPermit this permitData w = (Thrown e, w)) /\
  (forall contract,
     getAddress (prop permitData "verifyingContract") = Returned contract ->
     permitOwner this permitData = Thrown e ->
     signPermit this permitData w = (Thrown e, w)) /\
  (forall contract owner',
     getAddress (prop permitData "verifyingContract") = Returned contract ->
     permitOwner this permitData = Returned owner' ->
     getAddress (prop permitData "spender") = Thrown e ->
     signPermit this permitData w = (Thrown e, w)).
Proof.
  split; [|split].
  - intros Hc. unfold signPermit. cbv zeta. unfold bind at 1. unfold lift at 1.
    now rewrite Hc.
  - intros contract Hc Ho. unfold signPermit, permitOwner in *. cbv zeta.
    unfold bind at 1. unfold lift at 1. rewrite Hc. unfold bind at 1.
    destruct (truthy (prop permitData "owner")); [|discriminate].
    unfold lift at 1. now rewrite Ho.
  - intros contract owner' Hc Ho Hs. unfold signPermit, permitOwner in *. cbv zeta.
    unfold bind at 1. unfold lift at 1. rewrite Hc. unfold bind at 1.
    destruct (truthy (prop permitData "owner")).
    + unfold lift at 1. rewrite Ho. unfold bind at 1. unfold lift at 1.
      now rewrite Hs.
    + unfold ret at 1. unfold bind at 1. unfold lift at 1. now rewrite Hs.
Qed.

Lemma signPermit_rejected_address_witness :
  signPermit MoreExamples.strictSigner
    (set "spender" (VStr "vitalik.eth") Examples.permitData)
    (Examples.worldAt 1700000000000)
  = (Thrown "invalid address", Examples.worldAt 1700000000000).
Proof.
  destruct (signPermit_rejected_address MoreExamples.strictSigner
              (set "spender" (VStr "vitalik.eth") Examples.permitData)
              (Examples.worldAt 1700000000000) "invalid address"%string)
    as (_ & _ & Hspender).
  apply (Hspender "0xA0b86991c6218b36c1d19D4a2e9Eb0cE3606eB48"%string
           Examples.testAddress); reflexivity.
Defined.

(** X9: with a truthy deadline in [permitData], [signPermit] does not read
    the clock, and that deadline is the one reported and the one signed. *)
Theorem signPermit_explicit_deadline {E : Ethers} (this : EIP712Signer)
    permitData w r w' :
  truthy (prop permitData "deadline") = true ->
  signPermit this permitData w = (Returned r, w') ->
  w' = w /\
  deadline r = prop permitData "deadline" /\
  prop (messageWithDeadline r) "deadline" = prop permitData "deadline".
Proof.
  intros Ht H.
  destruct (signPermit_result this _ _ _ _ H)
    as (contract & owner' & spender' & _ & _ & _ & Hd & Hm & _).
  unfold resolveDeadline in Hd. rewrite (truthy_default _ Ht), Ht in Hd.
  simpl in Hd. rewrite (truthy_default _ Ht), Ht in Hd. injection Hd as Hd Hw.
  split; [assumption|]. split; [assumption|]. rewrite Hm. simpl. exact Hd.
Qed.

Lemma signPermit_explicit_deadline_witness :
  exists r w',
    signPermit Examples.echoSigner
      (set "deadline" (VNum 1700000000) Examples.permitData)
      (Examples.worldAt 1800000000000)
    = (Returned r, w') /\
    w' = Examples.worldAt 1800000000000 /\
    deadline r = VNum 1700000000.
Proof.
  eexists. eexists. split; [vm_compute; reflexivity|].
  destruct (signPermit_explicit_deadline Examples.echoSigner
              (set "deadline" (VNum 1700000000) Examples.permitData)
              (Examples.worldAt 1800000000000) _ _ eq_refl
              ltac:(vm_compute; reflexivity))
    as (Hw & Hd & _).
  split; [exact Hw | exact Hd].
Defined.

(** X10: an owner given in [permitData] is signed as the library
    normalises it, and is never compared with the signer: the result names
    the held key's address as [signer] whoever the owner is. *)
Theorem signPermit_owner_not_compared {E : Ethers} (this : EIP712Signer)
    permitData w r w' owner' :
  truthy (prop permitData "owner") = true ->
  getAddress (prop permitData "owner") = Returned owner' ->
  signPermit this permitData w = (Returned r, w') ->
  prop (messageWithDeadline r) "owner" = VStr owner' /\
  signer r = address (wallet this).
Proof.
  intros Ht Ho H.
  destruct (signPermit_result this _ _ _ _ H)
    as (contract & owner0 & spender' & _ & Ho' & _ & _ & Hm & Hs).
  unfold permitOwner in Ho'. rewrite Ht, Ho in Ho'. injection Ho' as <-.
  split; [|assumption]. rewrite Hm. reflexivity.
Qed.

Lemma signPermit_owner_not_compared_witness :
  exists r w',
    signPermit Examples.echoSigner
      (set "owner" (VStr "0x7a250d5630B4cF539739dF2C5dAcb4c659F2488D")
         Examples.permitData)
      (Examples.worldAt 1700000000000)
    = (Returned r, w') /\
    prop (messageWithDeadline r) "owner"
    = VStr "0x7a250d5630B4cF539739dF2C5dAcb4c659F2488D" /\
    signer r = Examples.testAddress.
Proof.
  eexists. eexists. split; [vm_compute; reflexivity|].
  apply (signPermit_owner_not_compared Examples.echoSigner
           (set "owner" (VStr "0x7a250d5630B4cF539739dF2C5dAcb4c659F2488D")
              Examples.permitData)
           (Examples.worldAt 1700000000000) _ _
           "0x7a250d5630B4cF539739dF2C5dAcb4c659F2488D"%string
           eq_refl eq_refl ltac:(vm_compute; reflexivity)).
Defined.

(* ================================================================== *)
(** * The command line *)

Lemma prop_set_other (o : Obj) k k' v : k <> k' -> prop (set k v o) k' = prop o k'.
Proof. intros H. unfold prop. now rewrite lookup_set_other. Qed.

Lemma prop_absent (o : Obj) k : hasOwnProperty o k = false -> prop o k = VUndefined.
Proof.
  intros H. apply hasOwnProperty_false, lookup_None in H. unfold prop. now rewrite H.
Qed.

(** The loop keeps this true of every option: it is [true], or a string
    that is not itself a flag. *)
Lemma parseOptions_values (args : list string) (options : Obj) :
  (forall k v, lookup k options = Some v ->
     v = VBool true \/ exists s, v = VStr s /\ Cli.startsWith s "--" = false) ->
  forall k v, lookup k (Cli.parseOptions args options) = Some v ->
    v = VBool true \/ exists s, v = VStr s /\ Cli.startsWith s "--" = false.
Proof.
  set (ok := fun v : Val =>
         v = VBool true \/ exists s, v = VStr s /\ Cli.startsWith s "--" = false).
  assert (Hset : forall (o : Obj) key x,
            (forall k v, lookup k o = Some v -> ok v) -> ok x ->
            forall k v, lookup k (set key x o) = Some v -> ok v).
  { intros o key x Ho Hx k v. destruct (String.eqb_spec key k) as [->|Hne].
    - rewrite lookup_set_same. now intros [= <-].
    - rewrite lookup_set_other by assumption. apply Ho. }
  assert (Hall : forall n args o, (List.length args <= n)%nat ->
            (forall k v, lookup k o = Some v -> ok v) ->
            forall k v, lookup k (Cli.parseOptions args o) = Some v -> ok v).
  { induction n as [|n IH]; intros [|arg rest] o Hlen Ho; simpl in *;
      try exact Ho; try lia.
    destruct (Cli.startsWith arg "--").
    - destruct rest as [|next rest'].
      + apply Hset; [assumption | now left].
      + destruct (Cli.startsWith next "--") eqn:Hnext.
        * apply IH; [simpl in *; lia|]. apply Hset; [assumption | now left].
        * apply IH; [simpl in *; lia|]. apply Hset; [assumption|].
          right. now exists next.
    - apply IH; [lia | assumption]. }
  intros Ho. exact (Hall (List.length args) args options (le_n _) Ho).
Qed.

(** X11: whatever the arguments, an option is [true] or a string that
    does not start with ["--"]: a flag followed by another flag, or by
    nothing, is a boolean, and a value that starts with ["--"] can never be
    given. *)
Theorem optionsOf_values (args : list string) k v :
  lookup k (Cli.optionsOf args) = Some v ->
  v = VBool true \/ exists s, v = VStr s /\ Cli.startsWith s "--" = false.
Proof.
  unfold Cli.optionsOf. apply parseOptions_values. intros k' v'. discriminate.
Qed.

Lemma optionsOf_values_witness :
  VBool true = VBool true \/
  exists s, VBool true = VStr s /\ Cli.startsWith s "--" = false.
Proof.
  apply (optionsOf_values [ "0x1234"; "--spender"; "--value"; "5" ]%string
           "spender"%string (VBool true)).
  reflexivity.
Defined.

Lemma underscores_idempotent (s : string) :
  Cli.underscores (Cli.underscores s) = Cli.underscores s.
Proof.
  induction s as [|c t IH]; simpl; [reflexivity|]. rewrite IH.
  destruct (Ascii.eqb_spec c "-"); simpl; [reflexivity|].
  destruct (Ascii.eqb_spec c "-"); [contradiction | reflexivity].
Qed.

Lemma parseOptions_flag (arg : string) (rest : list string) (options : Obj) :
  Cli.startsWith arg "--" = true ->
  Cli.parseOptions (arg :: rest) options
  = match rest with
    | [] => set (Cli.optionKey arg) (VBool true) options
    | next :: rest' =>
        if Cli.startsWith next "--"
        then Cli.parseOptions rest (set (Cli.optionKey arg) (VBool true) options)
        else Cli.parseOptions rest' (set (Cli.optionKey arg) (VStr next) options)
    end.
Proof. intros H. cbn [Cli.parseOptions]. now rewrite H. Qed.

Lemma startsWith_dashes (s : string) : Cli.startsWith ("--" ++ s) "--" = true.
Proof. now destruct s. Qed.

(** X12: hyphens and underscores in the name of a flag are the same thing:
    [--chain-id] and [--chain_id] set the same option, whatever follows. *)
Theorem parseOptions_hyphen_or_underscore (flag : string) (rest : list string)
    (options : Obj) :
  Cli.parseOptions (("--" ++ flag)%string :: rest) options
  = Cli.parseOptions (("--" ++ Cli.underscores flag)%string :: rest) options.
Proof.
  assert (Hkey : Cli.optionKey ("--" ++ flag) = Cli.optionKey ("--" ++ Cli.underscores flag)).
  { unfold Cli.optionKey. simpl. now rewrite underscores_idempotent. }
  rewrite !parseOptions_flag by apply startsWith_dashes. now rewrite Hkey.
Qed.

Section CliFacts.
Context {E : Ethers}.
Variable signer : EIP712Signer.

Lemma permitCommand_result options w r w' :
  Cli.permitCommand signer options w = (Returned r, w') ->
  signPermit signer (Cli.permitDataOf options) w = (Returned r, w').
Proof.
  unfold Cli.permitCommand. cbv zeta.
  destruct (negb _ || negb _ || negb _); [discriminate|].
  unfold try_catch.
  destruct (signPermit signer (Cli.permitDataOf options) w) as [[r0|e] w0];
    [now intros [= <- <-] | discriminate].
Qed.

(** What the deadline step of the custom-message branch gives. *)
Lemma customDeadline_eq options w :
  Cli.customDeadline options w
  = if truthy (prop options "deadline")
    then (Returned (Cli.deadlineNumber (Cli.parseInt (prop options "deadline"))), w)
    else
      (Returned
         (match (if truthy (prop options "deadline_duration")
                 then Cli.parseInt (prop options "deadline_duration")
                 else Some 3600) with
          | Some duration => VNum (readings w (reads w) / 1000 + duration)
          | None => VNull
          end),
       mkWorld (readings w) (S (reads w))).
Proof.
  unfold Cli.customDeadline. cbv zeta.
  destruct (truthy (prop options "deadline")); [reflexivity|].
  destruct (if truthy (prop options "deadline_duration")
            then Cli.parseInt (prop options "deadline_duration") else Some 3600);
    reflexivity.
Qed.

Lemma customCommand_result options types message w r w' :
  Cli.customCommand signer options types message w = (Returned r, w') ->
  exists domain dl w1,
    Cli.customDomain options = Returned domain /\
    Cli.customDeadline options w = (Returned dl, w1) /\
    signTypedData signer domain types message dl w1 = (Returned r, w').
Proof.
  unfold Cli.customCommand, try_catch. unfold bind at 1. unfold lift at 1.
  destruct (Cli.customDomain options) as [domain|e]; [|discriminate].
  unfold bind at 1.
  destruct (Cli.customDeadline options w) as [[dl|e] w1] eqn:Hdl; [|discriminate].
  intros H. exists domain, dl, w1. split; [reflexivity|]. split; [reflexivity|].
  destruct (signTypedData signer domain types message dl w1) as [[r0|e] w2];
    [now injection H as <- <- | discriminate].
Qed.

End CliFacts.

Lemma permitDataOf_ignores_duration (options : Obj) (v : Val) :
  Cli.permitDataOf (set "deadline_duration" v options) = Cli.permitDataOf options.
Proof.
  unfold Cli.permitDataOf. now rewrite !prop_set_other by discriminate.
Qed.

(** X13: the permit branch never reads [--deadline-duration]: whatever it
    is set to, the branch behaves the same, and without a truthy
    [--deadline] the permit expires 3600 seconds after the clock's time. *)
Theorem permitCommand_ignores_duration {E : Ethers} (signer : EIP712Signer)
    (options : Obj) (v : Val) (w : World) :
  Cli.permitCommand signer (set "deadline_duration" v options) w
  = Cli.permitCommand signer options w /\
  (truthy (prop options "deadline") = false ->
   0 <= readings w (reads w) ->
   forall r w',
     Cli.permitCommand signer (set "deadline_duration" v options) w = (Returned r, w') ->
     deadline r = VNum (readings w (reads w) / 1000 + 3600)).
Proof.
  assert (Heq : Cli.permitCommand signer (set "deadline_duration" v options) w
                = Cli.permitCommand signer options w).
  { unfold Cli.permitCommand. now rewrite permitDataOf_ignores_duration. }
  split; [exact Heq|]. intros Hf Hnow r w' H. rewrite Heq in H.
  apply permitCommand_result in H.
  destruct (signPermit_result signer _ _ _ _ H)
    as (_ & _ & _ & _ & _ & _ & Hd & _).
  assert (Hp : prop (Cli.permitDataOf options) "deadline" = VNull).
  { unfold Cli.permitDataOf. simpl. now rewrite Hf. }
  rewrite Hp in Hd. unfold resolveDeadline in Hd. simpl in Hd.
  pose proof (Z.div_pos (readings w (reads w)) 1000 Hnow ltac:(lia)) as Hdiv.
  destruct (Z.eqb_spec (readings w (reads w) / 1000 + 3600) 0) as [H0|_]; [lia|].
  simpl in Hd. congruence.
Qed.

Lemma permitCommand_ignores_duration_witness :
  Cli.permitCommand Examples.echoSigner
    (set "deadline_duration" (VStr "60") (Cli.optionsOf MoreExamples.permitArgs))
    (Examples.worldAt 1700000000000)
  = Cli.permitCommand Examples.echoSigner (Cli.optionsOf MoreExamples.permitArgs)
      (Examples.worldAt 1700000000000).
Proof.
  apply (permitCommand_ignores_duration Examples.echoSigner
           (Cli.optionsOf MoreExamples.permitArgs) (VStr "60")
           (Examples.worldAt 1700000000000)).
Defined.

(** X14: without [--verifying-contract], [--spender] or [--value] the
    permit branch ends with its own error line; nothing is signed and the
    clock is not read. *)
Theorem permitCommand_requires {E : Ethers} (signer : EIP712Signer)
    (options : Obj) (w : World) :
  hasOwnProperty options "verifying_contract" = false \/
  hasOwnProperty options "spender" = false \/
  hasOwnProperty options "value" = false ->
  Cli.permitCommand signer options w
  = (Thrown "Error: For permit signatures, --verifying-contract, --spender, and --value are required",
     w).
Proof.
  intros H. unfold Cli.permitCommand. cbv zeta.
  change (prop (Cli.permitDataOf options) "verifyingContract")
    with (prop options "verifying_contract").
  change (prop (Cli.permitDataOf options) "spender") with (prop options "spender").
  change (prop (Cli.permitDataOf options) "value") with (prop options "value").
  destruct H as [H|[H|H]]; rewrite (prop_absent _ _ H); simpl;
    rewrite ?orb_true_r; reflexivity.
Qed.

Lemma permitCommand_requires_witness :
  Cli.permitCommand Examples.echoSigner
    (Cli.optionsOf [ "0x1234"; "--permit"; "--spender";
                     "0x7a250d5630B4cF539739dF2C5dAcb4c659F2488D" ]%string)
    (Examples.worldAt 0)
  = (Thrown "Error: For permit signatures, --verifying-contract, --spender, and --value are required",
     Examples.worldAt 0).
Proof.
  apply (permitCommand_requires Examples.echoSigner). left. reflexivity.
Defined.

Lemma parseInt_or_nonzero (v : Val) (d : Z) : d <> 0 -> Cli.parseInt_or v d <> 0.
Proof.
  intros Hd. unfold Cli.parseInt_or. destruct (Cli.parseInt v) as [n|]; [|assumption].
  now destruct (Z.eqb_spec n 0).
Qed.

(** X15: the command line never signs for chain id 0: in both branches the
    chain id of the domain is a number other than 0, and it is 1 when
    [--chain-id] is absent, is not a number, or is 0. *)
Theorem cli_chain_id_never_zero {E : Ethers} (options : Obj) :
  exists n,
    n <> 0 /\
    prop (Cli.permitDataOf options) "chainId" = VNum n /\
    (forall domain,
       Cli.customDomain options = Returned domain -> prop domain "chainId" = VNum n) /\
    (Cli.parseInt (prop options "chain_id") = None \/
     Cli.parseInt (prop options "chain_id") = Some 0 -> n = 1).
Proof.
  exists (Cli.parseInt_or (prop options "chain_id") 1).
  split; [apply parseInt_or_nonzero; lia|]. split; [reflexivity|]. split.
  - intros domain. unfold Cli.customDomain.
    destruct (if truthy (prop options "verifying_contract")
              then getAddress (prop options "verifying_contract")
              else Returned Cli.ZeroAddress); [|discriminate].
    now intros [= <-].
  - unfold Cli.parseInt_or. now intros [-> | ->].
Qed.

(** X16: in the custom-message branch without a truthy [--deadline], a
    [--deadline-duration] that reads as the number [n] gives the deadline
    of the clock's time in seconds plus [n] (the clock's time itself for
    0), provided that [n], the clock reading and that sum are safe integers
    and the sum is not 0; the clock is read once. *)
Theorem customCommand_duration {E : Ethers} (signer : EIP712Signer)
    options types message w r w' n :
  truthy (prop options "deadline") = false ->
  truthy (prop options "deadline_duration") = true ->
  Cli.parseInt (prop options "deadline_duration") = Some n ->
  safeInteger n ->
  safeInteger (readings w (reads w)) ->
  safeInteger (readings w (reads w) / 1000 + n) ->
  readings w (reads w) / 1000 + n <> 0 ->
  Cli.customCommand signer options types message w = (Returned r, w') ->
  deadline r = VNum (readings w (reads w) / 1000 + n) /\
  w' = mkWorld (readings w) (S (reads w)) /\
  (declaresDeadline types = Some true ->
   prop (messageWithDeadline r) "deadline" = VNum (readings w (reads w) / 1000 + n)).
Proof.
  intros Hf Ht Hn _ _ _ Hne H.
  destruct (customCommand_result signer _ _ _ _ _ _ H)
    as (domain & dl & w1 & _ & Hdl & Hs).
  rewrite customDeadline_eq, Hf, Ht, Hn in Hdl. injection Hdl as <- <-.
  pose proof (signTypedData_result signer _ _ _ _ _ _ _ Hs) as (Hd & _).
  unfold resolveDeadline in Hd. simpl in Hd.
  destruct (Z.eqb_spec (readings w (reads w) / 1000 + n) 0) as [|_]; [contradiction|].
  simpl in Hd. injection Hd as Hd Hw.
  split; [assumption|]. split; [assumption|]. intros Hdecl.
  destruct (signTypedData_sets_deadline signer _ _ _ _ _ _ _ Hs Hdecl) as [_ Hp].
  congruence.
Qed.

Lemma customCommand_duration_witness :
  exists r w',
    Cli.customCommand Examples.echoSigner
      (Cli.optionsOf [ "0x1234"; "--deadline-duration"; "60" ]%string)
      Examples.actionTypes Examples.actionMessage (Examples.worldAt 1700000000000)
    = (Returned r, w') /\
    deadline r = VNum 1700000060.
Proof.
  eexists. eexists. split; [vm_compute; reflexivity|].
  eapply (customCommand_duration Examples.echoSigner
            (Cli.optionsOf [ "0x1234"; "--deadline-duration"; "60" ]%string)
            Examples.actionTypes Examples.actionMessage
            (Examples.worldAt 1700000000000) _ _ 60).
  - reflexivity.
  - reflexivity.
  - reflexivity.
  - unfold safeInteger. lia.
  - unfold safeInteger. simpl. lia.
  - unfold safeInteger. simpl. lia.
  - vm_compute. discriminate.
  - vm_compute. reflexivity.
Defined.

(** X17: a [--deadline] that reads as 0, or as no number at all, is
    replaced in the custom-message branch by the clock's time plus 3600
    seconds, whatever [--deadline-duration] says; the permit branch does
    the same with a clock at or after the epoch. *)
Theorem cli_zero_deadline_regenerated {E : Ethers} (signer : EIP712Signer)
    options types message w r w' :
  truthy (prop options "deadline") = true ->
  Cli.parseInt (prop options "deadline") = Some 0 \/
  Cli.parseInt (prop options "deadline") = None ->
  (Cli.customCommand signer options types message w = (Returned r, w') ->
   deadline r = VNum (readings w (reads w) / 1000 + 3600) /\
   w' = mkWorld (readings w) (S (reads w))) /\
  (0 <= readings w (reads w) ->
   Cli.permitCommand signer options w = (Returned r, w') ->
   deadline r = VNum (readings w (reads w) / 1000 + 3600)).
Proof.
  intros Ht Hp.
  assert (Hfalsy : truthy (Cli.deadlineNumber (Cli.parseInt (prop options "deadline")))
                   = false) by (destruct Hp as [-> | ->]; reflexivity).
  split.
  - intros H.
    destruct (customCommand_result signer _ _ _ _ _ _ H)
      as (domain & dl & w1 & _ & Hdl & Hs).
    rewrite customDeadline_eq, Ht in Hdl. injection Hdl as <- <-.
    apply signTypedData_result in Hs as (Hd & _).
    unfold resolveDeadline in Hd. rewrite (falsy_default _ Hfalsy) in Hd.
    now injection Hd as -> <-.
  - intros Hnow H. apply permitCommand_result in H.
    destruct (signPermit_result signer _ _ _ _ H)
      as (_ & _ & _ & _ & _ & _ & Hd & _).
    assert (Hpd : prop (Cli.permitDataOf options) "deadline"
                  = Cli.deadlineNumber (Cli.parseInt (prop options "deadline"))).
    { unfold Cli.permitDataOf. simpl. now rewrite Ht. }
    rewrite Hpd in Hd. unfold resolveDeadline in Hd.
    rewrite (falsy_default _ Hfalsy) in Hd. simpl in Hd.
    pose proof (Z.div_pos (readings w (reads w)) 1000 Hnow ltac:(lia)) as Hdiv.
    destruct (Z.eqb_spec (readings w (reads w) / 1000 + 3600) 0) as [H0|_]; [lia|].
    simpl in Hd. congruence.
Qed.

Lemma cli_zero_deadline_regenerated_witness :
  exists r w',
    Cli.customCommand Examples.echoSigner
      (Cli.optionsOf [ "0x1234"; "--deadline"; "0"; "--deadline-duration"; "60" ]%string)
      Examples.actionTypes Examples.actionMessage (Examples.worldAt 1700000000000)
    = (Returned r, w') /\
    deadline r = VNum 1700003600.
Proof.
  eexists. eexists. split; [vm_compute; reflexivity|].
  eapply (fun H =>
            proj1 (proj1 (cli_zero_deadline_regenerated Examples.echoSigner
              (Cli.optionsOf
                 [ "0x1234"; "--deadline"; "0"; "--deadline-duration"; "60" ]%string)
              Examples.actionTypes Examples.actionMessage
              (Examples.worldAt 1700000000000) _ _ eq_refl (or_introl eq_refl)) H)).
  vm_compute. reflexivity.
Defined.

(* ================================================================== *)
(** * The manual constructions: what is hashed *)

Lemma pack_bytes32_eq (v : Val) :
  Data.pack "bytes32" v
  = match v with
    | VStr s =>
        match Data.getBytes s with
        | Some bs => if Z.of_nat (List.length bs) =? 32 then Some bs else None
        | None => None
        end
    | _ => None
    end.
Proof. destruct v; reflexivity. Qed.

Lemma pack_bytes32 (v : Val) (b : list byte) :
  Data.pack "bytes32" v = Some b <->
  exists s, v = VStr s /\ Data.getBytes s = Some b /\ List.length b = 32%nat.
Proof.
  rewrite pack_bytes32_eq. split.
  - destruct v as [| |b0|n|s|l|o]; try discriminate.
    destruct (Data.getBytes s) as [bs|] eqn:Hb; [|discriminate].
    destruct (Z.eqb_spec (Z.of_nat (List.length bs)) 32) as [Hl|]; [|discriminate].
    intros [= <-]. exists s. repeat split; [assumption | lia].
  - intros (s & -> & -> & Hl). rewrite Hl. reflexivity.
Qed.

Lemma pack_string (s : string) :
  Data.pack "string" (VStr s) = Some (Data.toUtf8Bytes s).
Proof. reflexivity. Qed.

Lemma be_bytes_length (n : nat) (z : Z) : List.length (Data.be_bytes n z) = n.
Proof.
  revert z. induction n as [|n IH]; intros z; simpl; [reflexivity|].
  rewrite length_app, IH. simpl. lia.
Qed.

Lemma pack_uint256_length (v : Val) (b : list byte) :
  Data.pack "uint256" v = Some b -> List.length b = 32%nat.
Proof.
  assert (Heq : Data.pack "uint256" v
                = match Data.getBigInt v with
                  | Some z => Data.pack_uint 256 z
                  | None => None
                  end) by reflexivity.
  rewrite Heq. destruct (Data.getBigInt v) as [z|]; [|discriminate].
  unfold Data.pack_uint. destruct ((0 <=? z) && (z <? 2 ^ 256)); [|discriminate].
  intros H. assert (Hb : b = Data.be_bytes (Z.to_nat (256 / 8)) z) by congruence.
  rewrite Hb. apply be_bytes_length.
Qed.

Lemma pack_address_eq (v : Val) :
  Data.pack "address" v
  = match v with
    | VStr s =>
        match Data.getAddress s with
        | Some a => Data.getBytes a
        | None => None
        end
    | _ => None
    end.
Proof. destruct v; reflexivity. Qed.

Lemma hex_pairs_length (s : string) (b : list byte) :
  Data.hex_pairs s = Some b -> String.length s = (2 * List.length b)%nat.
Proof.
  assert (H : forall n s b, (String.length s <= n)%nat ->
            Data.hex_pairs s = Some b -> String.length s = (2 * List.length b)%nat).
  { induction n as [|n IH]; intros [|c1 [|c2 t]] b0 Hlen; simpl in *;
      try discriminate; try lia; try (intros [= <-]; reflexivity).
    destruct (Data.hex_value c1); [|discriminate].
    destruct (Data.hex_value c2); [|discriminate].
    destruct (Data.hex_pairs t) as [r|] eqn:Hr; [|discriminate].
    intros [= <-]. simpl. rewrite (IH t r); [lia | lia | assumption]. }
  apply (H (String.length s)). lia.
Qed.

Lemma checksum_chars_length (chars : list ascii) (hashed : list byte) :
  List.length (Data.checksum_chars chars hashed) = List.length chars.
Proof.
  assert (H : forall n chars hashed, (List.length chars <= n)%nat ->
            List.length (Data.checksum_chars chars hashed) = List.length chars).
  { induction n as [|n IH]; intros [|c1 [|c2 t]] [|h hs] Hlen; simpl in *;
      try reflexivity; try lia.
    rewrite IH; [reflexivity | lia]. }
  apply (H (List.length chars)). lia.
Qed.

Lemma string_of_list_length (l : list ascii) :
  String.length (string_of_list_ascii l) = List.length l.
Proof. induction l as [|c t IH]; simpl; [reflexivity | now rewrite IH]. Qed.

(** An address, once accepted, packs to 20 bytes. *)
Lemma pack_address_length (v : Val) (b : list byte) :
  Data.pack "address" v = Some b -> List.length b = 20%nat.
Proof.
  rewrite pack_address_eq. destruct v as [| |b0|n|s|l|o]; try discriminate.
  unfold Data.getAddress.
  set (digits := match s with
                 | String "0" (String "x" t) => list_ascii_of_string t
                 | _ => list_ascii_of_string s
                 end).
  destruct (Nat.eqb_spec (List.length digits) 40) as [Hlen|]; [|discriminate].
  destruct (forallb _ digits); [|discriminate]. simpl andb. cbv iota.
  destruct (negb (Data.mixed_case digits) || _); [|discriminate].
  unfold Data.getChecksumAddress, Data.getBytes. intros H.
  apply hex_pairs_length in H.
  rewrite string_of_list_length, checksum_chars_length, length_map, Hlen in H. lia.
Qed.

(** A byte string written in hex reads back as itself. *)
Lemma getBytes_hexlify (bs : list byte) : Data.getBytes (Data.hexlify bs) = Some bs.
Proof.
  unfold Data.hexlify, Data.getBytes.
  induction bs as [|b t IH]; [reflexivity|].
  cbn [Data.hex_of Data.hex_pairs]. rewrite IH.
  destruct b; reflexivity.
Qed.

Lemma keccak_round_length (s : list Z) (rc : Z) :
  List.length (Keccak.round s rc) = 25%nat.
Proof.
  unfold Keccak.round, Keccak.chi, Keccak.iota.
  destruct (map _ Keccak.coords) as [|a t] eqn:Hm.
  - apply (f_equal (@List.length Z)) in Hm. rewrite length_map in Hm. discriminate.
  - apply (f_equal (@List.length Z)) in Hm. rewrite length_map in Hm.
    simpl in *. lia.
Qed.

Lemma fold_round_length (rcs : list Z) (s : list Z) :
  rcs <> [] -> List.length (fold_left Keccak.round rcs s) = 25%nat.
Proof.
  revert s. induction rcs as [|rc t IH]; intros s Hne; [contradiction|].
  destruct t as [|rc' t'].
  - apply keccak_round_length.
  - change (fold_left Keccak.round (rc :: rc' :: t') s)
      with (fold_left Keccak.round (rc' :: t') (Keccak.round s rc)).
    apply IH. discriminate.
Qed.

Lemma keccak_f_length (s : list Z) : List.length (Keccak.keccak_f s) = 25%nat.
Proof.
  unfold Keccak.keccak_f. apply fold_round_length. unfold Keccak.RC. discriminate.
Qed.

(** The digest has 32 bytes. *)
Lemma keccak256_length (m : list byte) : List.length (Keccak.keccak256 m) = 32%nat.
Proof.
  unfold Keccak.keccak256.
  set (blocks := Keccak.chunks _ Keccak.rate (Keccak.pad m)).
  assert (H : forall bl s, List.length s = 25%nat ->
            List.length (fold_left Keccak.absorb bl s) = 25%nat).
  { induction bl as [|b t IH]; intros s Hs; simpl; [assumption|].
    apply IH. unfold Keccak.absorb. apply keccak_f_length. }
  specialize (H blocks (repeat 0 25) eq_refl).
  destruct (fold_left Keccak.absorb blocks (repeat 0 25))
    as [|l0 [|l1 [|l2 [|l3 rest]]]]; simpl in H; try lia.
  reflexivity.
Qed.

Lemma pack_hash (data : list byte) :
  Data.pack "bytes32" (VStr (Data.keccak256 data)) = Some (Keccak.keccak256 data).
Proof.
  apply pack_bytes32. exists (Data.keccak256 data). split; [reflexivity|].
  split; [apply getBytes_hexlify | apply keccak256_length].
Qed.

Lemma solidityPacked_cons (t : string) (ts : list string) (v : Val) (vs : list Val) :
  Data.solidityPacked (t :: ts) (v :: vs)
  = match Data.pack t v, Data.solidityPacked ts vs with
    | Some b, Some r => Some (b ++ r)
    | _, _ => None
    end.
Proof. reflexivity. Qed.

(** X18: the final hash exists exactly when the domain separator and the
    struct hash are hex strings of 32 bytes each, and is then the Keccak-256
    hash of the 66 bytes [0x19 0x01], separator, struct hash. *)
Theorem finalHashOf_spec (domainSeparator structHash h : string) :
  Scripts.finalHashOf domainSeparator structHash = Some h <->
  exists d s,
    Data.getBytes domainSeparator = Some d /\ List.length d = 32%nat /\
    Data.getBytes structHash = Some s /\ List.length s = 32%nat /\
    h = Data.keccak256 (x19 :: x01 :: d ++ s).
Proof.
  unfold Scripts.finalHashOf, Scripts.obind.
  rewrite !solidityPacked_cons.
  change (Data.pack "string" (VStr Scripts.prefix_1901)) with (Some [x19; x01]).
  change (Data.solidityPacked [] []) with (Some (@nil byte)).
  split.
  - destruct (Data.pack "bytes32" (VStr domainSeparator)) as [d|] eqn:Hd; [|discriminate].
    destruct (Data.pack "bytes32" (VStr structHash)) as [s|] eqn:Hs; [|discriminate].
    apply pack_bytes32 in Hd as (s1 & [= <-] & Hd & Hld).
    apply pack_bytes32 in Hs as (s2 & [= <-] & Hs & Hls).
    intros [= <-]. exists d, s. rewrite app_nil_r. repeat split; assumption.
  - intros (d & s & Hd & Hld & Hs & Hls & ->).
    assert (Hpd : Data.pack "bytes32" (VStr domainSeparator) = Some d)
      by (apply pack_bytes32; eauto).
    assert (Hps : Data.pack "bytes32" (VStr structHash) = Some s)
      by (apply pack_bytes32; eauto).
    rewrite Hpd, Hps, app_nil_r. reflexivity.
Qed.

Lemma finalHashOf_spec_witness :
  exists h,
    Scripts.finalHashOf Scripts.domainTypeHash Scripts.domainTypeHash = Some h.
Proof.
  eexists.
  apply (finalHashOf_spec Scripts.domainTypeHash Scripts.domainTypeHash).
  exists (Keccak.keccak256 (Data.toUtf8Bytes
    "EIP712Domain(string name,string version,uint256 chainId,address verifyingContract)")).
  eexists. split; [apply getBytes_hexlify|]. split; [apply keccak256_length|].
  split; [apply getBytes_hexlify|]. split; [apply keccak256_length|]. reflexivity.
Defined.

(** X19: the domain separator of the scripts is the hash of 148 bytes: the
    three 32-byte hashes (domain type, name, version), the chain id on 32
    bytes and the verifying contract on its 20 bytes, not on a 32-byte
    slot. *)
Theorem domainSeparatorOf_preimage (domain : Obj) (h : string) :
  Scripts.domainSeparatorOf domain = Some h ->
  exists name version chainId contract,
    prop domain "name" = VStr name /\
    prop domain "version" = VStr version /\
    Data.pack "uint256" (prop domain "chainId") = Some chainId /\
    Data.pack "address" (prop domain "verifyingContract") = Some contract /\
    let packed :=
      Keccak.keccak256 (Data.toUtf8Bytes
        "EIP712Domain(string name,string version,uint256 chainId,address verifyingContract)")
      ++ Keccak.keccak256 (Data.toUtf8Bytes name)
      ++ Keccak.keccak256 (Data.toUtf8Bytes version)
      ++ chainId ++ contract in
    List.length packed = 148%nat /\ h = Data.keccak256 packed.
Proof.
  unfold Scripts.domainSeparatorOf, Scripts.obind, Scripts.utf8_of.
  destruct (prop domain "name") as [| |b0|n0|name|l0|o0];
    try match goal with |- None = Some _ -> _ => discriminate end.
  destruct (prop domain "version") as [| |b1|n1|version|l1|o1];
    try match goal with |- None = Some _ -> _ => discriminate end.
  rewrite !solidityPacked_cons.
  unfold Scripts.domainTypeHash. rewrite !pack_hash.
  change (Data.solidityPacked [] []) with (Some (@nil byte)).
  destruct (Data.pack "uint256" (prop domain "chainId")) as [chainId|] eqn:Hc;
    [|intros H; exact (match H with end)].
  destruct (Data.pack "address" (prop domain "verifyingContract")) as [contract|] eqn:Ha;
    [|intros H; exact (match H with end)].
  intros H. apply (f_equal (fun o => match o with Some x => x | None => h end)) in H.
  cbv beta iota in H. subst h. exists name, version, chainId, contract.
  repeat (split; [reflexivity|]). cbv zeta. rewrite app_nil_r. split; [|reflexivity].
  rewrite !length_app, !keccak256_length, (pack_uint256_length _ _ Hc),
    (pack_address_length _ _ Ha). reflexivity.
Qed.

Lemma domainSeparatorOf_preimage_witness :
  exists h packed,
    Scripts.domainSeparatorOf Scripts.RecoverAddressTest.domain = Some h /\
    List.length packed = 148%nat /\ h = Data.keccak256 packed.
Proof.
  assert (H : Scripts.domainSeparatorOf Scripts.RecoverAddressTest.domain
              = Some "0x03bb976018065c184bf89faff71072a30a6b3905cd8e4728c3d97363877dc18c"%string)
    by (vm_compute; reflexivity).
  destruct (domainSeparatorOf_preimage Scripts.RecoverAddressTest.domain _ H)
    as (name & version & chainId & contract & _ & _ & _ & _ & Hlen & Hh).
  eexists. eexists. split; [exact H|]. split; [exact Hlen | exact Hh].
Defined.

Lemma pack_uint32_length (v : Val) (b : list byte) :
  Data.pack "uint32" v = Some b -> List.length b = 4%nat.
Proof.
  assert (Heq : Data.pack "uint32" v
                = match Data.getBigInt v with
                  | Some z => Data.pack_uint 32 z
                  | None => None
                  end) by reflexivity.
  rewrite Heq. destruct (Data.getBigInt v) as [z|]; [|discriminate].
  unfold Data.pack_uint. destruct ((0 <=? z) && (z <? 2 ^ 32)); [|discriminate].
  intros H. assert (Hb : b = Data.be_bytes (Z.to_nat (32 / 8)) z) by congruence.
  rewrite Hb. apply be_bytes_length.
Qed.

Lemma pack_bytes1_length (v : Val) (b : list byte) :
  Data.pack "bytes1" v = Some b -> List.length b = 1%nat.
Proof.
  assert (Heq : Data.pack "bytes1" v
                = match v with
                  | VStr s =>
                      match Data.getBytes s with
                      | Some bs => if Z.of_nat (List.length bs) =? 1 then Some bs else None
                      | None => None
                      end
                  | _ => None
                  end) by (destruct v; reflexivity).
  rewrite Heq. destruct v as [| |b0|n|s|l|o]; try discriminate.
  destruct (Data.getBytes s) as [bs|]; [|discriminate].
  destruct (Z.eqb_spec (Z.of_nat (List.length bs)) 1); [|discriminate].
  intros [= <-]. lia.
Qed.

Lemma solidityPacked_inv (t : string) (ts : list string) (v : Val) (vs : list Val)
    (packed : list byte) :
  Data.solidityPacked (t :: ts) (v :: vs) = Some packed ->
  exists b r,
    Data.pack t v = Some b /\ Data.solidityPacked ts vs = Some r /\ packed = b ++ r.
Proof.
  rewrite solidityPacked_cons.
  destruct (Data.pack t v) as [b|]; [|intros H; exact (match H with end)].
  destruct (Data.solidityPacked ts vs) as [r|]; [|intros H; exact (match H with end)].
  intros H. exists b, r. repeat split. congruence.
Qed.

(** X20: the struct hash that [recoverAddressTest] builds for an order is
    the hash of 321 bytes, the members packed at their own widths (20 bytes
    an address, 4 the [uint32], 1 the [bytes1]), not of thirteen 32-byte
    slots. *)
Theorem recover_structHashOf_preimage (message : Obj) (h : string) :
  Scripts.RecoverAddressTest.structHashOf message = Some h ->
  exists packed,
    Data.solidityPacked
      ["bytes32"; "address"; "address"; "address"; "uint256"; "uint256";
       "uint32"; "bytes32"; "uint256"; "bytes32"; "bytes1"; "bytes32"; "bytes32"]%string
      [VStr Scripts.RecoverAddressTest.orderTypeHash;
       prop message "sellToken"; prop message "buyToken"; prop message "receiver";
       prop message "sellAmount"; prop message "buyAmount"; prop message "validTo";
       prop message "appData"; prop message "feeAmount"; prop message "kind";
       prop message "partiallyFillable"; prop message "sellTokenBalance";
       prop message "buyTokenBalance"]
    = Some packed /\
    List.length packed = 321%nat /\
    h = Data.keccak256 packed.
Proof.
  unfold Scripts.RecoverAddressTest.structHashOf, Scripts.obind.
  destruct (Data.solidityPacked _ _) as [packed|] eqn:Hp;
    [|intros H; exact (match H with end)].
  intros H. exists packed. split; [reflexivity|]. split; [|congruence].
  clear H.
  apply solidityPacked_inv in Hp as (b1 & r1 & H1 & Hp & ->).
  apply solidityPacked_inv in Hp as (b2 & r2 & H2 & Hp & ->).
  apply solidityPacked_inv in Hp as (b3 & r3 & H3 & Hp & ->).
  apply solidityPacked_inv in Hp as (b4 & r4 & H4 & Hp & ->).
  apply solidityPacked_inv in Hp as (b5 & r5 & H5 & Hp & ->).
  apply solidityPacked_inv in Hp as (b6 & r6 & H6 & Hp & ->).
  apply solidityPacked_inv in Hp as (b7 & r7 & H7 & Hp & ->).
  apply solidityPacked_inv in Hp as (b8 & r8 & H8 & Hp & ->).
  apply solidityPacked_inv in Hp as (b9 & r9 & H9 & Hp & ->).
  apply solidityPacked_inv in Hp as (b10 & r10 & H10 & Hp & ->).
  apply solidityPacked_inv in Hp as (b11 & r11 & H11 & Hp & ->).
  apply solidityPacked_inv in Hp as (b12 & r12 & H12 & Hp & ->).
  apply solidityPacked_inv in Hp as (b13 & r13 & H13 & Hp & ->).
  assert (r13 = []) by (change (Data.solidityPacked [] []) with (Some (@nil byte)) in Hp;
                        congruence).
  subst r13.
  unfold Scripts.RecoverAddressTest.orderTypeHash in H1. rewrite pack_hash in H1.
  assert (Hl1 : List.length b1 = 32%nat)
    by (injection H1 as <-; apply keccak256_length).
  apply pack_address_length in H2, H3, H4.
  apply pack_uint256_length in H5, H6, H9.
  apply pack_uint32_length in H7.
  apply pack_bytes32 in H8 as (? & _ & _ & H8).
  apply pack_bytes32 in H10 as (? & _ & _ & H10).
  apply pack_bytes1_length in H11.
  apply pack_bytes32 in H12 as (? & _ & _ & H12).
  apply pack_bytes32 in H13 as (? & _ & _ & H13).
  rewrite !length_app. simpl List.length. lia.
Qed.

Lemma recover_structHashOf_preimage_witness :
  exists h packed,
    Scripts.RecoverAddressTest.structHashOf Scripts.RecoverAddressTest.message = Some h /\
    List.length packed = 321%nat /\ h = Data.keccak256 packed.
Proof.
  assert (H : Scripts.RecoverAddressTest.structHashOf Scripts.RecoverAddressTest.message
              = Some "0xb7333d306396f9b3242c025e922c86b125ade5173f908aa938538b24a274ebf6"%string)
    by (vm_compute; reflexivity).
  destruct (recover_structHashOf_preimage Scripts.RecoverAddressTest.message _ H)
    as (packed & _ & Hlen & Hh).
  exists "0xb7333d306396f9b3242c025e922c86b125ade5173f908aa938538b24a274ebf6"%string, packed.
  split; [exact H|]. split; [exact Hlen | exact Hh].
Defined.

(* ================================================================== *)
(** * Hashed strings against raw [bytes32] values *)

Lemma utf8_of_inv (v : Val) (b : list byte) :
  Scripts.utf8_of v = Some b -> exists s, v = VStr s /\ b = Data.toUtf8Bytes s.
Proof.
  destruct v as [| |b0|n|s|l|o]; unfold Scripts.utf8_of; try discriminate.
  intros H. exists s. split; [reflexivity | congruence].
Qed.

Lemma pack_bool_length (v : Val) (b : list byte) :
  Data.pack "bool" v = Some b -> List.length b = 1%nat.
Proof.
  assert (Heq : Data.pack "bool" v = Some [if truthy v then x01 else x00])
    by reflexivity.
  rewrite Heq. intros H. assert (Hb : b = [if truthy v then x01 else x00]) by congruence.
  now rewrite Hb.
Qed.

(** C4: the construction that types [kind], [sellTokenBalance] and
    [buyTokenBalance] as [string] puts in the slot of each, for every order,
    the 32 bytes of the Keccak-256 hash of the value: [kind] after the 224
    bytes of the type hash and the eight members before it, the other two
    last, after the one byte of the boolean.  On the order of the debug
    script its member slots are those of the [bytes32]-typed construction
    run on the hashes of the three strings, and differ from those of the
    same construction run on the strings written out as [bytes32] values;
    with one and the same type hash the hashed and the raw slots give
    different struct hashes and different final digests; and the
    [string]-typed construction, whose type hash differs too, gives a struct
    hash and a final digest different from the raw one's.  The two scripts,
    on their own orders, disagree as well. *)
Theorem string_hash_differs_from_raw_bytes32 :
  (forall message h,
     Scripts.DebugEIP712Construction.structHashOf message = Some h ->
     exists kind sellTokenBalance buyTokenBalance before between,
       prop message "kind" = VStr kind /\
       prop message "sellTokenBalance" = VStr sellTokenBalance /\
       prop message "buyTokenBalance" = VStr buyTokenBalance /\
       List.length before = 224%nat /\
       List.length between = 1%nat /\
       h = Data.keccak256
             (before ++ Keccak.keccak256 (Data.toUtf8Bytes kind) ++ between
              ++ Keccak.keccak256 (Data.toUtf8Bytes sellTokenBalance)
              ++ Keccak.keccak256 (Data.toUtf8Bytes buyTokenBalance))) /\
  let order := Scripts.DebugEIP712Construction.message in
  exists raw hashed,
    Examples.rawStrings order = Some raw /\
    Examples.hashedStrings order = Some hashed /\
    prop raw "kind"
    = VStr "0x53656c6c00000000000000000000000000000000000000000000000000000000" /\
    prop hashed "kind" = VStr (Data.keccak256 (Data.toUtf8Bytes "Sell")) /\
    exists typeHash typeHash32 slots rawSlots,
      Data.getBytes Scripts.DebugEIP712Construction.orderTypeHash = Some typeHash /\
      Data.getBytes Scripts.RecoverAddressTest.orderTypeHash = Some typeHash32 /\
      Examples.memberSlots hashed = Some slots /\
      Examples.memberSlots raw = Some rawSlots /\
      slots <> rawSlots /\
      Scripts.DebugEIP712Construction.structHashOf order
      = Some (Data.keccak256 (typeHash ++ slots)) /\
      Scripts.RecoverAddressTest.structHashOf hashed
      = Some (Data.keccak256 (typeHash32 ++ slots)) /\
      Scripts.RecoverAddressTest.structHashOf raw
      = Some (Data.keccak256 (typeHash32 ++ rawSlots)) /\
      Data.keccak256 (typeHash32 ++ slots) <> Data.keccak256 (typeHash32 ++ rawSlots) /\
      Data.keccak256 (typeHash ++ slots) <> Data.keccak256 (typeHash32 ++ rawSlots) /\
      exists d_string d_hashed d_raw,
        Scripts.DebugEIP712Construction.digestOf order = Some d_string /\
        Scripts.RecoverAddressTest.ourEIP712HashOf hashed = Some d_hashed /\
        Scripts.RecoverAddressTest.ourEIP712HashOf raw = Some d_raw /\
        d_hashed <> d_raw /\
        d_string <> d_raw /\
        Scripts.DebugEIP712Construction.structHash
        <> Scripts.RecoverAddressTest.structHash /\
        Scripts.DebugEIP712Construction.digest
        <> Scripts.RecoverAddressTest.ourEIP712Hash.
Proof.
  split.
  - intros message h H.
    unfold Scripts.DebugEIP712Construction.structHashOf, Scripts.obind in H.
    destruct (Scripts.utf8_of (prop message "kind")) as [kb|] eqn:Hk;
      [|exact (match H with end)].
    destruct (Scripts.utf8_of (prop message "sellTokenBalance")) as [sb|] eqn:Hs;
      [|exact (match H with end)].
    destruct (Scripts.utf8_of (prop message "buyTokenBalance")) as [bb|] eqn:Hb;
      [|exact (match H with end)].
    destruct (Data.solidityPacked _ _) as [packed|] eqn:Hp;
      [|exact (match H with end)].
    apply utf8_of_inv in Hk as (kind & Hk & ->).
    apply utf8_of_inv in Hs as (sell & Hs & ->).
    apply utf8_of_inv in Hb as (buy & Hb & ->).
    apply solidityPacked_inv in Hp as (b1 & r1 & H1 & Hp & ->).
    apply solidityPacked_inv in Hp as (b2 & r2 & H2 & Hp & ->).
    apply solidityPacked_inv in Hp as (b3 & r3 & H3 & Hp & ->).
    apply solidityPacked_inv in Hp as (b4 & r4 & H4 & Hp & ->).
    apply solidityPacked_inv in Hp as (b5 & r5 & H5 & Hp & ->).
    apply solidityPacked_inv in Hp as (b6 & r6 & H6 & Hp & ->).
    apply solidityPacked_inv in Hp as (b7 & r7 & H7 & Hp & ->).
    apply solidityPacked_inv in Hp as (b8 & r8 & H8 & Hp & ->).
    apply solidityPacked_inv in Hp as (b9 & r9 & H9 & Hp & ->).
    apply solidityPacked_inv in Hp as (b10 & r10 & H10 & Hp & ->).
    apply solidityPacked_inv in Hp as (b11 & r11 & H11 & Hp & ->).
    apply solidityPacked_inv in Hp as (b12 & r12 & H12 & Hp & ->).
    apply solidityPacked_inv in Hp as (b13 & r13 & H13 & Hp & ->).
    assert (r13 = [])
      by (change (Data.solidityPacked [] []) with (Some (@nil byte)) in Hp;
          congruence).
    subst r13.
    unfold Scripts.DebugEIP712Construction.orderTypeHash in H1.
    rewrite pack_hash in H1, H10, H12, H13.
    assert (Hl1 : List.length b1 = 32%nat)
      by (assert (Hb1 : b1 = Keccak.keccak256
                              (Data.toUtf8Bytes
                                 "Order(address sellToken,address buyToken,address receiver,uint256 sellAmount,uint256 buyAmount,uint32 validTo,bytes32 appData,uint256 feeAmount,string kind,bool partiallyFillable,string sellTokenBalance,string buyTokenBalance)"))
            by congruence;
          rewrite Hb1; apply keccak256_length).
    assert (E10 : b10 = Keccak.keccak256 (Data.toUtf8Bytes kind)) by congruence.
    assert (E12 : b12 = Keccak.keccak256 (Data.toUtf8Bytes sell)) by congruence.
    assert (E13 : b13 = Keccak.keccak256 (Data.toUtf8Bytes buy)) by congruence.
    clear H1 H10 H12 H13.
    apply pack_address_length in H2, H3, H4.
    apply pack_uint256_length in H5, H6, H9.
    apply pack_uint32_length in H7.
    apply pack_bytes32 in H8 as (? & _ & _ & H8).
    apply pack_bool_length in H11.
    exists kind, sell, buy,
      (b1 ++ b2 ++ b3 ++ b4 ++ b5 ++ b6 ++ b7 ++ b8 ++ b9), b11.
    split; [assumption|]. split; [assumption|]. split; [assumption|].
    split; [rewrite !length_app; lia|]. split; [assumption|].
    rewrite <- E10, <- E12, <- E13.
    assert (Hh : h = Data.keccak256
                       (b1 ++ b2 ++ b3 ++ b4 ++ b5 ++ b6 ++ b7 ++ b8 ++ b9 ++ b10
                        ++ b11 ++ b12 ++ b13 ++ [])) by congruence.
    rewrite Hh, app_nil_r. f_equal. now rewrite <- !app_assoc.
  - cbv zeta. eexists. eexists.
    split; [vm_compute; reflexivity|].
    split; [vm_compute; reflexivity|].
    split; [vm_compute; reflexivity|].
    split; [vm_compute; reflexivity|].
    do 4 eexists.
    do 4 (split; [vm_compute; reflexivity|]).
    split; [vm_compute; intros H; discriminate H|].
    do 3 (split; [vm_compute; reflexivity|]).
    do 2 (split; [vm_compute; intros H; discriminate H|]).
    do 3 eexists.
    do 3 (split; [vm_compute; reflexivity|]).
    repeat split; vm_compute; intros H; discriminate H.
Qed.

(* ================================================================== *)
(** * The field-order check, once more *)

Lemma reorder_idempotent (declared : list string) (m : Obj) :
  reorder declared (reorder declared m) = reorder declared m.
Proof.
  apply same_keys_same_lookup.
  - apply wf_reorder.
  - rewrite !keys_reorder. f_equal. apply filter_ext_in. intros k Hin.
    rewrite !hasOwnProperty_lookup, lookup_reorder.
    apply existsb_eqb_In in Hin. now rewrite Hin.
  - intros k _. rewrite !lookup_reorder.
    now destruct (existsb (String.eqb k) declared).
Qed.

(** X21: the check reports a message as ordered exactly when its keys are
    the declared names, one for one and in order; then the message is
    signed as given.  A message that lacks a declared member (one left out
    for the deadline to be injected, say) or has an undeclared one is
    always reported as out of order. *)
Theorem checkFieldOrder_reports_order (types : Types) (message : Obj)
    pt fields orderCheck :
  primaryTypeOf types = Some pt ->
  lookup pt types = Some fields ->
  checkFieldOrder types message = Returned orderCheck ->
  (isOrdered orderCheck = true <-> keys message = map name fields) /\
  (isOrdered orderCheck = true -> reconciled types message = message) /\
  (forall k,
     In k (map name fields) /\ hasOwnProperty message k = false \/
     hasOwnProperty message k = true /\ ~ In k (map name fields) ->
     isOrdered orderCheck = false).
Proof.
  intros Hpt Hl Hc.
  destruct (checkFieldOrder_primary types message pt Hpt) as [fields' [Hl' Hc']].
  assert (fields' = fields) by congruence. subst fields'.
  assert (Hiff : isOrdered orderCheck = true <-> keys message = map name fields).
  { rewrite Hc' in Hc.
    destruct (callThrows (map name fields) message); [discriminate|].
    injection Hc as <-. simpl. rewrite same_strings_eq.
    split; intros H; now symmetry. }
  split; [exact Hiff|]. split.
  - intros Hord. rewrite <- (checkFieldOrder_reconciled _ _ _ Hc). now rewrite Hord.
  - intros k Hk. apply not_true_iff_false. intros Hord. apply Hiff in Hord.
    destruct Hk as [[Hin Hno]|[Hhas Hnot]].
    + apply hasOwnProperty_false in Hno. apply Hno. now rewrite Hord.
    + apply hasOwnProperty_In in Hhas. apply Hnot. now rewrite <- Hord.
Qed.

Lemma checkFieldOrder_reports_order_witness :
  exists orderCheck,
    checkFieldOrder Examples.actionTypes Examples.actionMessage = Returned orderCheck /\
    isOrdered orderCheck = false.
Proof.
  eexists. split; [reflexivity|].
  destruct (checkFieldOrder_reports_order Examples.actionTypes Examples.actionMessage
              "Action"%string _ _ eq_refl eq_refl eq_refl)
    as (_ & _ & Hmissing).
  apply (Hmissing "deadline"%string). left. split; [|reflexivity].
  simpl. tauto.
Defined.

(** X22: reconciling is idempotent: what goes on after the check, put
    through the check again, goes on unchanged. *)
Theorem reconciled_idempotent (types : Types) (message : Obj) pt :
  wf message ->
  primaryTypeOf types = Some pt ->
  reconciled types (reconciled types message) = reconciled types message.
Proof.
  intros Hwf Hpt.
  destruct (checkFieldOrder_primary types message pt Hpt) as [fields [Hl _]].
  rewrite (reconciled_primary _ _ _ _ Hwf Hpt Hl).
  rewrite (reconciled_primary _ _ _ _ (wf_reorder _ _) Hpt Hl).
  apply reorder_idempotent.
Qed.

Lemma reconciled_idempotent_witness :
  reconciled Examples.voteTypes (reconciled Examples.voteTypes Examples.voteMessageExtra)
  = reconciled Examples.voteTypes Examples.voteMessageExtra.
Proof.
  apply (reconciled_idempotent Examples.voteTypes Examples.voteMessageExtra "Vote"%string).
  - unfold wf. simpl. repeat constructor; simpl; intuition discriminate.
  - reflexivity.
Defined.
